(** * mqtt-simulation: a shallow embedding of [run.py]

    The simulated devices of [run.py] are MQTT clients: sensors publish
    random readings, actuators answer every command received on
    [<topic>/toggleState].  The embedding below follows the file top to
    bottom.  Library calls whose result the program only passes on
    ([json.loads], the random generator, [uuid.uuid1], float rounding) are
    parameters of the development; the transport client [paho.mqtt] is
    modelled by the trace of the calls made on it. *)

From Stdlib Require Import ZArith QArith Qround Lia Lqa Ascii.
From stdpp Require Import base decidable strings list gmap.

Local Open Scope string_scope.
Local Open Scope Z_scope.

(** ** Python values *)

Module Py.

(** A Python [str] and a Python [bytes] are both sequences of bytes here; a
    [str] is held in its UTF-8 form. *)
Definition str := string.
Definition bytes := string.

(** The values [json.loads] can return and [json.dumps] can take: a [dict]
    keeps its keys in insertion order, each key once; a [float] is the
    rational it denotes (the program makes no [nan] and no infinity). *)
#[warnings="-register-all"]
Inductive value : Type :=
  | VNone
  | VBool (b : bool)
  | VInt (z : Z)
  | VFloat (q : Q)
  | VStr (s : str)
  | VList (l : list value)
  | VDict (d : list (str * value)).

Definition dict := list (str * value).

Inductive exn : Type :=
  | UnicodeDecodeError
  | JSONDecodeError
  | KeyError (key : str)
  | TypeError
  | ValueError
  | IndexError
  | AttributeError (attr : str).

(** Outcome of a computation that may raise. *)
Inductive result (A : Type) : Type :=
  | Ok (a : A)
  | Raise (e : exn).
Arguments Ok {A} a.
Arguments Raise {A} e.

(** [bool(v)]: the truth value Python's [if v:] tests. *)
Definition truthy (v : value) : bool :=
  match v with
  | VNone => false
  | VBool b => b
  | VInt z => negb (z =? 0)
  | VFloat q => negb (Qeq_bool q 0)
  | VStr s => negb (String.eqb s "")
  | VList l => match l with [] => false | _ => true end
  | VDict d => match d with [] => false | _ => true end
  end.

(** [d.get(k)] as an option. *)
Fixpoint dict_get (k : str) (d : dict) : option value :=
  match d with
  | [] => None
  | (k', v) :: d' => if String.eqb k k' then Some v else dict_get k d'
  end.

(** [d[k] = v]: an existing key keeps its place, a new key goes last. *)
Fixpoint dict_set (k : str) (v : value) (d : dict) : dict :=
  match d with
  | [] => [(k, v)]
  | (k', v') :: d' =>
      if String.eqb k k' then (k', v) :: d' else (k', v') :: dict_set k v d'
  end.

Definition keys (d : dict) : list str := map fst d.

(** [m[k]] on the value [m]: [KeyError] on a dict without [k], [TypeError]
    on anything that is not a dict (a list or a str wants an integer index,
    the other values are not subscriptable). *)
Definition getitem (m : value) (k : str) : result value :=
  match m with
  | VDict d =>
      match dict_get k d with
      | Some v => Ok v
      | None => Raise (KeyError k)
      end
  | _ => Raise TypeError
  end.

(** [m[k] = v] on the value [m]: only a dict takes a [str] key. *)
Definition setitem (m : value) (k : str) (v : value) : result value :=
  match m with
  | VDict d => Ok (VDict (dict_set k v d))
  | _ => Raise TypeError
  end.

End Py.

Import Py.

(** ** Floating point

    A Python [float] is written as the rational it denotes.  [fl] rounds
    the exact result of an operation to the nearest float; what the
    development needs of it is gathered in [RoundingLaws]: rounding keeps
    the order, and the integers up to [2 ^ 53] are floats, as with the
    64-bit floats of Python. *)

Class Rounding := { fl : Q -> Q }.

Class RoundingLaws (R : Rounding) : Prop := {
  fl_proper : forall x y : Q, (x == y)%Q -> (fl x == fl y)%Q;
  fl_mono : forall x y : Q, (x <= y)%Q -> (fl x <= fl y)%Q;
  fl_int : forall z : Z, Z.abs z <= 2 ^ 53 -> (fl (inject_Z z) == inject_Z z)%Q
}.

(** Exact arithmetic: every rational is its own rounding. *)
Definition exact_rounding : Rounding := {| fl := fun q => q |}.

(** Nearest integer, ties to the even one. *)
Definition round_half_even (x : Q) : Z :=
  let f := Qfloor x in
  match Qcompare (x - inject_Z f) (1 # 2) with
  | Lt => f
  | Gt => f + 1
  | Eq => if Z.even f then f else f + 1
  end.

(** [round(x, ndigits)] for a float [x] and [ndigits >= 0]: the float
    nearest to [x] rounded to [ndigits] decimals. *)
Definition round `{Rounding} (x : Q) (ndigits : nat) : Q :=
  let p := inject_Z (10 ^ Z.of_nat ndigits) in
  fl (inject_Z (round_half_even (x * p)) / p).

(** [v] is a float with at most two decimals: the float nearest to some
    [n / 100]. *)
Definition two_decimals `{Rounding} (v : Q) : Prop :=
  exists n : Z, (v == fl (n # 100))%Q.

(** ** UUIDs *)

Module Uuid.

(** A UUID is its 128-bit integer. *)
Definition uuid := N.

Definition hex_digit (d : N) : ascii :=
  match d with
  | 0 => "0" | 1 => "1" | 2 => "2" | 3 => "3" | 4 => "4" | 5 => "5"
  | 6 => "6" | 7 => "7" | 8 => "8" | 9 => "9" | 10 => "a" | 11 => "b"
  | 12 => "c" | 13 => "d" | 14 => "e" | _ => "f"
  end%N%char.

(** ['%0<width>x' % n], as a list of characters, for [n < 16 ^ width]. *)
Fixpoint hex (width : nat) (n : N) : list ascii :=
  match width with
  | O => []
  | S w => hex w (n / 16)%N ++ [hex_digit (n mod 16)%N]
  end.

(** [str(u)]: the 32 hexadecimal digits in groups of 8-4-4-4-12. *)
Definition to_str (u : uuid) : str :=
  let h := hex 32 (u mod 2 ^ 128)%N in
  let dash := ["-"%char] in
  String.string_of_list_ascii
    (take 8 h ++ dash ++ take 4 (drop 8 h) ++ dash ++ take 4 (drop 12 h)
       ++ dash ++ take 4 (drop 16 h) ++ dash ++ drop 20 h).

(** Reading the text back: these undo [hex_digit], [hex] and the grouping. *)

(** The digit a hexadecimal character stands for. *)
Definition digit_value (c : ascii) : N :=
  let n := N_of_ascii c in
  (if n <? 58 then n - 48 else n - 87)%N.

(** The number a list of hexadecimal characters writes. *)
Definition unhex (l : list ascii) : N :=
  fold_left (fun acc c => (acc * 16 + digit_value c)%N) l 0%N.

(** The digits of a UUID text, dashes taken out. *)
Definition ungroup (l : list ascii) : list ascii :=
  take 8 l ++ take 4 (drop 9 l) ++ take 4 (drop 14 l)
    ++ take 4 (drop 19 l) ++ drop 24 l.

End Uuid.

(** ** Effects

    What a device does to the outside is kept as the list of its effects,
    oldest first. *)

Inductive level := INFO | WARNING.

(** The records handed to [logger], by the statement that writes them. *)
Inductive log_record : Type :=
  | LogPublished (name : str) (mid : Z)
  | LogConnected (name host : str) (port : Z)
  | LogConnectFailed (rc : Z)
  | LogDisconnected (name host : str) (port : Z)
  | LogSubscribed (name topic : str) (granted_qos mid : Z)
  | LogUnsubscribed (name topic : str)
  | LogReceived (name : str) (text : str)
  | LogReceivedMessage (name : str) (in_message : value).

(** The text [json.dumps v]: the serialiser is the json library's, the text
    is kept as the record it was made from. *)
Inductive json_text : Type := json_dumps (v : value).

Inductive event : Type :=
  | Sleep (seconds : Q)
  | Log (lvl : level) (r : log_record)
  | Connect (host : str) (port keepalive : Z)
  | LoopStart
  | Publish (topic : str) (qos : Z) (payload : json_text)
      (correlation_data : bytes) (retain : bool)
  | Subscribe (topic : str) (qos : Z)
  | Unsubscribe (topic : str)
  | Disconnect.

(** The state a device runs in: the outcomes of the next calls of the
    [random] module and of [uuid.uuid1], in call order, and the effects so
    far. *)
Record world : Type := {
  randoms : nat -> N;
  random_pos : nat;
  uuids : nat -> Uuid.uuid;
  uuid_pos : nat;
  trace : list event
}.

(** A statement: it may change the world, and returns or raises. *)
Definition M (A : Type) : Type := world -> result A * world.

Definition ret {A} (a : A) : M A := fun w => (Ok a, w).
Definition raise {A} (e : exn) : M A := fun w => (Raise e, w).
Definition bind {A B} (m : M A) (f : A -> M B) : M B :=
  fun w => match m w with
           | (Ok a, w') => f a w'
           | (Raise e, w') => (Raise e, w')
           end.
Definition lift {A} (r : result A) : M A := fun w => (r, w).

Notation "x <- m ;; k" := (bind m (fun x => k))
  (at level 100, m at next level, right associativity).
Notation "m ;;; k" := (bind m (fun _ => k))
  (at level 100, right associativity).

(** The three ways the world changes. *)
Definition record (e : event) (w : world) : world :=
  {| randoms := randoms w; random_pos := random_pos w;
     uuids := uuids w; uuid_pos := uuid_pos w;
     trace := trace w ++ [e] |}.

Definition consume_random (w : world) : world :=
  {| randoms := randoms w; random_pos := S (random_pos w);
     uuids := uuids w; uuid_pos := uuid_pos w;
     trace := trace w |}.

Definition consume_uuid (w : world) : world :=
  {| randoms := randoms w; random_pos := random_pos w;
     uuids := uuids w; uuid_pos := S (uuid_pos w);
     trace := trace w |}.

Definition emit (e : event) : M unit := fun w => (Ok tt, record e w).

(** The next outcome of the [random] module. *)
Definition next_random : M N :=
  fun w => (Ok (randoms w (random_pos w)), consume_random w).

(** [uuid.uuid1()]. *)
Definition uuid1 : M Uuid.uuid :=
  fun w => (Ok (uuids w (uuid_pos w)), consume_uuid w).

(** ** The [random] module and [time] *)

Section Random.
Context `{Rounding}.

(** [random.random()]: a multiple of [2 ^ -53] in [0, 1). *)
Definition random : M Q :=
  k <- next_random ;;
  ret (Z.of_N (k mod 2 ^ 53)%N # 2 ^ 53)%Q.

(** [random.uniform(a, b)] is [a + (b - a) * random()], on floats. *)
Definition uniform (a b : Z) : M Q :=
  r <- random ;;
  ret (fl (fl (inject_Z a) + fl (fl (inject_Z (b - a)) * r)))%Q.

(** [random.randint(a, b)]: an integer of [a .. b], [ValueError] on an
    empty range. *)
Definition randint (a b : Z) : M Z :=
  if b <? a then raise ValueError
  else k <- next_random ;; ret (a + Z.of_N k mod (b - a + 1)).

Definition sleep (seconds : Q) : M unit := emit (Sleep seconds).

(** [get_next_random] *)
Definition get_next_random (lower upper : Z) : M Q :=
  u <- uniform lower upper ;;
  ret (round u 2).

End Random.

(** [random.random()] on the outcome [outcome] of the generator. *)
Definition unit_of (outcome : N) : Q :=
  (Z.of_N (outcome mod 2 ^ 53)%N # 2 ^ 53)%Q.

(** What [get_next_random(lower, upper)] makes of the outcome [outcome]:
    the statements of [uniform] and [round] on it. *)
Definition drawn `{Rounding} (lower upper : Z) (outcome : N) : Q :=
  round (fl (fl (inject_Z lower)
             + fl (fl (inject_Z (upper - lower)) * unit_of outcome)))%Q 2.

(** ** Library calls on text *)

(** [b.decode("utf-8")]: the bytes must be well-formed UTF-8 (no overlong
    form, no surrogate, nothing above U+10FFFF).  [need] continuation bytes
    are awaited, the next of them in [lo .. hi]. *)
Fixpoint utf8_scan (need : nat) (lo hi : N) (s : string) : bool :=
  match s with
  | EmptyString => match need with O => true | S _ => false end
  | String c s' =>
      let b := N_of_ascii c in
      match need with
      | O =>
          if (b <? 128)%N then utf8_scan 0 128 191 s'
          else if ((194 <=? b) && (b <=? 223))%N then utf8_scan 1 128 191 s'
          else if (b =? 224)%N then utf8_scan 2 160 191 s'
          else if (b =? 237)%N then utf8_scan 2 128 159 s'
          else if ((225 <=? b) && (b <=? 239))%N then utf8_scan 2 128 191 s'
          else if (b =? 240)%N then utf8_scan 3 144 191 s'
          else if ((241 <=? b) && (b <=? 243))%N then utf8_scan 3 128 191 s'
          else if (b =? 244)%N then utf8_scan 3 128 143 s'
          else false
      | S n =>
          if ((lo <=? b) && (b <=? hi))%N then utf8_scan n 128 191 s'
          else false
      end
  end.

Definition decode (b : bytes) : result str :=
  if utf8_scan 0 128 191 b then Ok b else Raise UnicodeDecodeError.

(** [json.loads] is the json library's: the development holds for whatever
    it returns or raises. *)
Class JsonLib := { json_loads : str -> result value }.

(** A message as the transport delivers it: [payload] and
    [properties.CorrelationData], an attribute that exists only when the
    sender set one. *)
Record MQTTMessage : Type := {
  payload : bytes;
  CorrelationData : option bytes
}.

(** ** class MQTTClient *)

Module MQTTClient.

Definition broker_url : str := "192.168.21.105".
Definition broker_port : Z := 1883.
Definition main_topic : str := "mind2".

(** The fields of [self]. *)
Record t : Type := { name : str; topic : str }.

Definition __init__ (topic : str) : t :=
  {| name := topic; topic := main_topic ++ "/" ++ topic |}.

Definition connect (self : t) : M unit :=
  emit (Connect broker_url broker_port 60).

(** [not correlation_data] *)
Definition not_ (correlation_data : option bytes) : bool :=
  match correlation_data with
  | None => true
  | Some c => String.eqb c ""
  end.

Definition publish (self : t) (payload : json_text)
    (correlation_data : option bytes) : M unit :=
  properties_CorrelationData <-
    (match correlation_data with
     | Some c => if not_ correlation_data
                 then u <- uuid1 ;; ret (Uuid.to_str u)
                 else ret c
     | None => u <- uuid1 ;; ret (Uuid.to_str u)
     end) ;;
  emit (Publish (topic self) 2 payload properties_CorrelationData false).

Definition subscribe (self : t) (topic : str) : M unit :=
  emit (Subscribe topic 2).

Definition __on_publish (self : t) (mid : Z) : M unit :=
  emit (Log INFO (LogPublished (name self) mid)).

Definition __on_connect (self : t) (response_code : Z) : M unit :=
  if response_code =? 0
  then emit (Log INFO (LogConnected (name self) broker_url broker_port))
  else emit (Log WARNING (LogConnectFailed response_code)).

Definition __on_disconnect (self : t) (response_code : Z) : M unit :=
  emit (Log INFO (LogDisconnected (name self) broker_url broker_port)).

Definition __on_subscribe (self : t) (mid : Z) (granted_qos : list Z) : M unit :=
  match granted_qos with
  | q :: _ => emit (Log INFO (LogSubscribed (name self) (topic self) q mid))
  | [] => raise IndexError
  end.

Definition __on_unsubscribe (self : t) (mid : Z) : M unit :=
  emit (Log INFO (LogUnsubscribed (name self) (topic self))).

Definition __on_message (self : t) (message : MQTTMessage) : M unit :=
  text <- lift (decode (payload message)) ;;
  emit (Log INFO (LogReceived (name self) text)).

End MQTTClient.

(** ** class MQTTSensor and the five sensors *)

Module MQTTSensor.

Definition __init__ (client_name : str) : M MQTTClient.t :=
  let self := MQTTClient.__init__ client_name in
  MQTTClient.connect self ;;;
  emit LoopStart ;;;
  ret self.

(** [loop]: [alive] lists the values the loop reads from
    [SIMULATION_ALIVE], one per test of the [while].  The result says
    whether the loop was left (and the client disconnected) before the
    readings ran out. *)
Fixpoint loop (tick : M unit) (alive : list bool) : M bool :=
  match alive with
  | [] => ret false
  | true :: alive' => tick ;;; loop tick alive'
  | false :: _ => emit Disconnect ;;; ret true
  end.

End MQTTSensor.

(** [decision[i]] *)
Definition index (decision : list bool) (i : Z) : result bool :=
  let n := Z.of_nat (length decision) in
  if (i <? - n) || (n <=? i) then Raise IndexError
  else match decision !! Z.to_nat (i mod n) with
       | Some b => Ok b
       | None => Raise IndexError
       end.

Module TemperatureSensor.

Definition __simulation `{Rounding} (self : MQTTClient.t) : M unit :=
  temperature <- get_next_random 18 26 ;;
  humidity <- get_next_random 40 90 ;;
  battery <- get_next_random 89 92 ;;
  linkquality <- get_next_random 50 255 ;;
  let message := VDict [("temperature", VFloat temperature);
                        ("humidity", VFloat humidity);
                        ("battery", VFloat battery);
                        ("linkquality", VFloat linkquality)] in
  MQTTClient.publish self (json_dumps message) None ;;;
  seconds <- randint 10 15 ;;
  sleep (inject_Z seconds).

End TemperatureSensor.

Module MotionSensor.

Definition __simulation `{Rounding} (self : MQTTClient.t) : M unit :=
  let decision := [true; false; false; false; false; false; false; false] in
  i <- randint 0 (Z.of_nat (length decision) - 1) ;;
  alert <- lift (index decision i) ;;
  battery <- get_next_random 89 92 ;;
  linkquality <- get_next_random 50 255 ;;
  let message := VDict [("on", VBool true);
                        ("alert", VBool alert);
                        ("battery", VFloat battery);
                        ("linkquality", VFloat linkquality)] in
  MQTTClient.publish self (json_dumps message) None ;;;
  seconds <- randint 30 60 ;;
  sleep (inject_Z seconds).

End MotionSensor.

Module WindowSensor.

Definition __simulation `{Rounding} (self : MQTTClient.t) : M unit :=
  let decision := [true; false; false; false; false; false; false; false] in
  i <- randint 0 (Z.of_nat (length decision) - 1) ;;
  open <- lift (index decision i) ;;
  battery <- get_next_random 89 92 ;;
  linkquality <- get_next_random 50 255 ;;
  let message := VDict [("open", VBool open);
                        ("battery", VFloat battery);
                        ("linkquality", VFloat linkquality)] in
  MQTTClient.publish self (json_dumps message) None ;;;
  seconds <- randint 100 200 ;;
  sleep (inject_Z seconds).

End WindowSensor.

Module DoorSensor.

Definition __simulation `{Rounding} (self : MQTTClient.t) : M unit :=
  let decision := [true; false; false; false; false; false; false; false] in
  i <- randint 0 (Z.of_nat (length decision) - 1) ;;
  open <- lift (index decision i) ;;
  battery <- get_next_random 89 92 ;;
  linkquality <- get_next_random 50 255 ;;
  let message := VDict [("open", VBool open);
                        ("battery", VFloat battery);
                        ("linkquality", VFloat linkquality)] in
  MQTTClient.publish self (json_dumps message) None ;;;
  seconds <- randint 100 200 ;;
  sleep (inject_Z seconds).

End DoorSensor.

Module SmokeDetector.

Definition __simulation `{Rounding} (self : MQTTClient.t) : M unit :=
  let decision := [true; false; false; false; false; false; false; false;
                   false; false; false] in
  i <- randint 0 (Z.of_nat (length decision) - 1) ;;
  alert <- lift (index decision i) ;;
  battery <- get_next_random 89 92 ;;
  linkquality <- get_next_random 50 255 ;;
  let message := VDict [("on", VBool true);
                        ("alert", VBool alert);
                        ("battery", VFloat battery);
                        ("linkquality", VFloat linkquality)] in
  MQTTClient.publish self (json_dumps message) None ;;;
  seconds <- randint 100 200 ;;
  sleep (inject_Z seconds).

End SmokeDetector.

(** ** class MQTTActuator and the five actuators *)

Definition rbind {A B} (r : result A) (f : A -> result B) : result B :=
  match r with
  | Ok a => f a
  | Raise e => Raise e
  end.

Notation "x <-- r ;; k" := (rbind r (fun x => k))
  (at level 100, r at next level, right associativity).

Module MQTTActuator.

(** [self]: the fields of the client and [self.simulation]. *)
Record t : Type := {
  client : MQTTClient.t;
  simulation : value -> result value
}.

Definition __init__ (client_name : str) (simulation : value -> result value)
    : M t :=
  let self := {| client := MQTTClient.__init__ client_name;
                 simulation := simulation |} in
  MQTTClient.connect (client self) ;;;
  emit LoopStart ;;;
  ret self.

Definition __on_connect (self : t) (rc : Z) : M unit :=
  if rc =? 0
  then
    emit (Log INFO (LogConnected (MQTTClient.name (client self))
                      MQTTClient.broker_url MQTTClient.broker_port)) ;;;
    MQTTClient.subscribe (client self)
      (MQTTClient.topic (client self) ++ "/toggleState")
  else emit (Log WARNING (LogConnectFailed rc)).

(** [message.properties.CorrelationData] *)
Definition get_CorrelationData (message : MQTTMessage) : result bytes :=
  match CorrelationData message with
  | Some c => Ok c
  | None => Raise (AttributeError "CorrelationData")
  end.

Definition __on_message `{Rounding} `{JsonLib} (self : t)
    (message : MQTTMessage) : M unit :=
  ms <- randint 1 10 ;;
  sleep (fl (ms # 1000)) ;;;
  text <- lift (decode (payload message)) ;;
  in_message <- lift (json_loads text) ;;
  emit (Log INFO (LogReceivedMessage (MQTTClient.name (client self))
                    in_message)) ;;;
  out_message <- lift (simulation self in_message) ;;
  battery <- get_next_random 89 92 ;;
  out_message <- lift (setitem out_message "battery" (VFloat battery)) ;;
  linkquality <- get_next_random 50 255 ;;
  out_message <- lift (setitem out_message "linkquality"
                         (VFloat linkquality)) ;;
  correlation_data <- lift (get_CorrelationData message) ;;
  MQTTClient.publish (client self) (json_dumps out_message)
    (Some correlation_data).

(** [loop]: [alive] lists the values read from [SIMULATION_ALIVE], as for
    the sensors; every pass of the [while] sleeps a tenth of a second. *)
Fixpoint loop `{Rounding} (self : t) (alive : list bool) : M bool :=
  match alive with
  | [] => ret false
  | true :: alive' => sleep (fl (1 # 10)) ;;; loop self alive'
  | false :: _ =>
      emit (Unsubscribe (MQTTClient.topic (client self))) ;;;
      emit Disconnect ;;;
      ret true
  end.

End MQTTActuator.

Module DoorActuator.

Definition __simulation (message : value) : result value :=
  let out_message := VDict [("open", VBool true)] in
  v <-- getitem message "open" ;;
  out_message <-- setitem out_message "open" v ;;
  Ok out_message.

Definition __init__ (actuator_name : str) : M MQTTActuator.t :=
  MQTTActuator.__init__ actuator_name __simulation.

End DoorActuator.

Module Thermostat.

Definition __simulation (message : value) : result value :=
  let out_message := VDict [("active", VBool true); ("state", VInt 0)] in
  v <-- getitem message "active" ;;
  out_message <-- setitem out_message "active" v ;;
  active <-- getitem out_message "active" ;;
  if truthy active
  then
    v <-- getitem message "state" ;;
    out_message <-- setitem out_message "state" v ;;
    Ok out_message
  else Ok out_message.

Definition __init__ (actuator_name : str) : M MQTTActuator.t :=
  MQTTActuator.__init__ actuator_name __simulation.

End Thermostat.

Module FireAlarm.

Definition __simulation (message : value) : result value :=
  let out_message := VDict [("alert", VBool true)] in
  v <-- getitem message "alert" ;;
  out_message <-- setitem out_message "alert" v ;;
  Ok out_message.

Definition __init__ (actuator_name : str) : M MQTTActuator.t :=
  MQTTActuator.__init__ actuator_name __simulation.

End FireAlarm.

Module Shutter.

Definition __simulation (message : value) : result value :=
  let out_message := VDict [("active", VBool true); ("percentage", VInt 0)] in
  v <-- getitem message "active" ;;
  out_message <-- setitem out_message "active" v ;;
  active <-- getitem out_message "active" ;;
  if truthy active
  then
    v <-- getitem message "percentage" ;;
    out_message <-- setitem out_message "percentage" v ;;
    Ok out_message
  else Ok out_message.

Definition __init__ (actuator_name : str) : M MQTTActuator.t :=
  MQTTActuator.__init__ actuator_name __simulation.

End Shutter.

Module LedBulb.

Definition __simulation (message : value) : result value :=
  let out_message := VDict [("on", VBool true)] in
  v <-- getitem message "on" ;;
  out_message <-- setitem out_message "on" v ;;
  Ok out_message.

Definition __init__ (actuator_name : str) : M MQTTActuator.t :=
  MQTTActuator.__init__ actuator_name __simulation.

End LedBulb.

(** ** A decoder to run the handlers on concrete payloads

    [JsonRef.loads] reads JSON text the way [json.loads] does, on the texts
    that stay within: numbers as exact decimals, escapes of the basic
    plane, no [NaN] or [Infinity]. *)

Module JsonRef.

(** The character that opens and closes a string. *)
Definition quote : ascii := "034"%char.

Definition is_ws (c : ascii) : bool :=
  let n := N_of_ascii c in
  ((n =? 32) || (n =? 9) || (n =? 10) || (n =? 13))%N.

Fixpoint skip_ws (s : string) : string :=
  match s with
  | String c s' => if is_ws c then skip_ws s' else s
  | EmptyString => s
  end.

Fixpoint strip_prefix (p s : string) : option string :=
  match p, s with
  | EmptyString, _ => Some s
  | String a p', String b s' =>
      if Ascii.eqb a b then strip_prefix p' s' else None
  | String _ _, EmptyString => None
  end.

Definition digit_of (c : ascii) : option Z :=
  let n := Z.of_N (N_of_ascii c) in
  if (48 <=? n) && (n <=? 57) then Some (n - 48) else None.

(** The longest run of digits at the head of [s]: its value after [acc],
    how many there were, and the rest. *)
Fixpoint digits (s : string) (acc : Z) (count : nat) : Z * nat * string :=
  match s with
  | String c s' =>
      match digit_of c with
      | Some d => digits s' (acc * 10 + d) (S count)
      | None => (acc, count, s)
      end
  | EmptyString => (acc, count, s)
  end.

Definition pow10 (e : Z) : Q :=
  if 0 <=? e then inject_Z (10 ^ e) else (/ inject_Z (10 ^ (- e)))%Q.

(** A number: an optional minus, an integer part without leading zero,
    then optionally a point with digits and an exponent.  With neither it
    is an [int], otherwise a [float]. *)
Definition parse_number `{Rounding} (s : string) : option (value * string) :=
  let (negative, s1) :=
    match s with
    | String "-" r => (true, r)
    | _ => (false, s)
    end in
  let '(int_part, n, s2) :=
    match s1 with
    | String "0" r => (0, 1%nat, r)
    | _ => digits s1 0 0
    end in
  match n with
  | O => None
  | S _ =>
      let '(frac, frac_len, s3) :=
        match s2 with
        | String "." r =>
            match digits r 0 0 with
            | (_, O, _) => (0, O, s2)
            | (f, k, r') => (f, k, r')
            end
        | _ => (0, O, s2)
        end in
      let '(exponent, has_exp, s4) :=
        match s3 with
        | String c r =>
            if Ascii.eqb c "e" || Ascii.eqb c "E" then
              let (minus, r1) :=
                match r with
                | String "-" r' => (true, r')
                | String "+" r' => (false, r')
                | _ => (false, r)
                end in
              match digits r1 0 0 with
              | (_, O, _) => (0, false, s3)
              | (e, _, r2) => (if minus then - e else e, true, r2)
              end
            else (0, false, s3)
        | EmptyString => (0, false, s3)
        end in
      let sign := if negative then -1 else 1 in
      match frac_len, has_exp with
      | O, false => Some (VInt (sign * int_part), s4)
      | _, _ =>
          let mantissa :=
            (inject_Z (sign * (int_part * 10 ^ Z.of_nat frac_len + frac))
             * pow10 (- Z.of_nat frac_len))%Q in
          Some (VFloat (fl (mantissa * pow10 exponent)%Q), s4)
      end
  end.

Definition hex_of (c : ascii) : option N :=
  let n := N_of_ascii c in
  (if (48 <=? n) && (n <=? 57) then Some (n - 48)
   else if (97 <=? n) && (n <=? 102) then Some (n - 87)
   else if (65 <=? n) && (n <=? 70) then Some (n - 55)
   else None)%N.

(** The UTF-8 form of a code point of the basic plane that is no
    surrogate. *)
Definition utf8_encode (cp : N) : option string :=
  (if cp <? 128 then Some (String (ascii_of_N cp) EmptyString)
   else if cp <? 2048 then
     Some (String (ascii_of_N (192 + cp / 64))
             (String (ascii_of_N (128 + cp mod 64)) EmptyString))
   else if (55296 <=? cp) && (cp <=? 57343) then None
   else
     Some (String (ascii_of_N (224 + cp / 4096))
             (String (ascii_of_N (128 + (cp / 64) mod 64))
                (String (ascii_of_N (128 + cp mod 64)) EmptyString))))%N.

(** The characters of a string literal after its opening quote. *)
Fixpoint parse_chars (s : string) (acc : string) : option (string * string) :=
  match s with
  | EmptyString => None
  | String c s' =>
      if Ascii.eqb c quote then Some (acc, s')
      else if Ascii.eqb c "\" then
        match s' with
        | String e s'' =>
            let simple (x : ascii) :=
              parse_chars s'' (acc ++ String x EmptyString) in
            if Ascii.eqb e quote then simple quote
            else if Ascii.eqb e "\" then simple "\"%char
            else if Ascii.eqb e "/" then simple "/"%char
            else if Ascii.eqb e "b" then simple (ascii_of_N 8)
            else if Ascii.eqb e "f" then simple (ascii_of_N 12)
            else if Ascii.eqb e "n" then simple (ascii_of_N 10)
            else if Ascii.eqb e "r" then simple (ascii_of_N 13)
            else if Ascii.eqb e "t" then simple (ascii_of_N 9)
            else if Ascii.eqb e "u" then
              match s'' with
              | String a (String b (String c' (String d rest))) =>
                  match hex_of a, hex_of b, hex_of c', hex_of d with
                  | Some x3, Some x2, Some x1, Some x0 =>
                      match utf8_encode
                              (((x3 * 16 + x2) * 16 + x1) * 16 + x0)%N with
                      | Some u => parse_chars rest (acc ++ u)
                      | None => None
                      end
                  | _, _, _, _ => None
                  end
              | _ => None
              end
            else None
        | EmptyString => None
        end
      else if (N_of_ascii c <? 32)%N then None
      else parse_chars s' (acc ++ String c EmptyString)
  end.

Section Parser.
Context `{Rounding}.

Fixpoint parse_value (fuel : nat) (s : string) : option (value * string) :=
  match fuel with
  | O => None
  | S fuel' =>
      match s with
      | String c r =>
          if Ascii.eqb c quote then
            match parse_chars r EmptyString with
            | Some (x, r') => Some (VStr x, r')
            | None => None
            end
          else if Ascii.eqb c "{" then
            match skip_ws r with
            | String "}" r' => Some (VDict [], r')
            | r' =>
                match parse_members fuel' r' [] with
                | Some (d, r'') => Some (VDict d, r'')
                | None => None
                end
            end
          else if Ascii.eqb c "[" then
            match skip_ws r with
            | String "]" r' => Some (VList [], r')
            | r' =>
                match parse_elements fuel' r' [] with
                | Some (l, r'') => Some (VList l, r'')
                | None => None
                end
            end
          else if Ascii.eqb c "n" then
            match strip_prefix "ull" r with
            | Some r' => Some (VNone, r')
            | None => None
            end
          else if Ascii.eqb c "t" then
            match strip_prefix "rue" r with
            | Some r' => Some (VBool true, r')
            | None => None
            end
          else if Ascii.eqb c "f" then
            match strip_prefix "alse" r with
            | Some r' => Some (VBool false, r')
            | None => None
            end
          else parse_number s
      | EmptyString => None
      end
  end

(** [s] stands at a member of an object, [acc] holds the members before. *)
with parse_members (fuel : nat) (s : string) (acc : dict)
    : option (dict * string) :=
  match fuel with
  | O => None
  | S fuel' =>
      match s with
      | String "034" r =>
          match parse_chars r EmptyString with
          | Some (k, r1) =>
              match skip_ws r1 with
              | String ":" r2 =>
                  match parse_value fuel' (skip_ws r2) with
                  | Some (v, r3) =>
                      let acc' := dict_set k v acc in
                      match skip_ws r3 with
                      | String "}" r4 => Some (acc', r4)
                      | String "," r4 => parse_members fuel' (skip_ws r4) acc'
                      | _ => None
                      end
                  | None => None
                  end
              | _ => None
              end
          | None => None
          end
      | _ => None
      end
  end

(** [s] stands at an element of an array, [acc] holds the elements
    before. *)
with parse_elements (fuel : nat) (s : string) (acc : list value)
    : option (list value * string) :=
  match fuel with
  | O => None
  | S fuel' =>
      match parse_value fuel' s with
      | Some (v, r) =>
          match skip_ws r with
          | String "]" r' => Some ((acc ++ [v])%list, r')
          | String "," r' => parse_elements fuel' (skip_ws r') (acc ++ [v])%list
          | _ => None
          end
      | None => None
      end
  end.

Definition loads (s : str) : result value :=
  match parse_value (2 * String.length s + 2) (skip_ws s) with
  | Some (v, r) =>
      match skip_ws r with
      | EmptyString => Ok v
      | _ => Raise JSONDecodeError
      end
  | None => Raise JSONDecodeError
  end.

End Parser.

Definition lib `{Rounding} : JsonLib := {| json_loads := loads |}.

End JsonRef.

(** ** The roster

    The classes the main program starts devices of. *)

Inductive sensor : Type := Temperature | Motion | Window | Door | Smoke.

Definition tick `{Rounding} (k : sensor) : MQTTClient.t -> M unit :=
  match k with
  | Temperature => TemperatureSensor.__simulation
  | Motion => MotionSensor.__simulation
  | Window => WindowSensor.__simulation
  | Door => DoorSensor.__simulation
  | Smoke => SmokeDetector.__simulation
  end.

Inductive actuator : Type :=
  | DoorA | ThermostatA | FireAlarmA | ShutterA | LedBulbA.

Definition transform (k : actuator) : value -> result value :=
  match k with
  | DoorA => DoorActuator.__simulation
  | ThermostatA => Thermostat.__simulation
  | FireAlarmA => FireAlarm.__simulation
  | ShutterA => Shutter.__simulation
  | LedBulbA => LedBulb.__simulation
  end.

(** The actuator object a class of the roster builds for a name. *)
Definition new_actuator (k : actuator) (actuator_name : str) : MQTTActuator.t :=
  {| MQTTActuator.client := MQTTClient.__init__ actuator_name;
     MQTTActuator.simulation := transform k |}.

(** ** Observations on a trace *)

(** The topics subscribed and not unsubscribed since. *)
Definition subscriptions (tr : list event) : gset string :=
  fold_left
    (fun subs e =>
       match e with
       | Subscribe topic _ => subs ∪ {[ topic ]}
       | Unsubscribe topic => subs ∖ {[ topic ]}
       | _ => subs
       end)
    tr ∅.

(** The topics and correlation data of the messages published. *)
Definition published (tr : list event) : list (str * bytes) :=
  omap (fun e => match e with
                 | Publish topic _ _ c _ => Some (topic, c)
                 | _ => None
                 end) tr.

(** A cycle of a sensor of class [k] can end with a pause of [seconds]. *)
Definition pauses `{Rounding} (k : sensor) (seconds : Q) : Prop :=
  exists (self : MQTTClient.t) (w w' : world),
    tick k self w = (Ok tt, w') /\ last (trace w') = Some (Sleep seconds).

(** The pauses of class [k] are the whole numbers of seconds of
    [lo .. hi], all of them and no other. *)
Definition pauses_drawn_from `{Rounding} (k : sensor) (lo hi : Z) : Prop :=
  forall seconds : Q,
    pauses k seconds <->
    exists z : Z, lo <= z <= hi /\ seconds = inject_Z z.

(** ** The tables of the specification

    What the specification declares for each class, to compare the code
    with. *)

(** The numeric fields of a reading and their ranges. *)
Definition declared_ranges (k : sensor) : list (str * (Z * Z)) :=
  match k with
  | Temperature => [("temperature", (18, 26)); ("humidity", (40, 90));
                    ("battery", (89, 92)); ("linkquality", (50, 255))]
  | _ => [("battery", (89, 92)); ("linkquality", (50, 255))]
  end.

(** The range, in seconds, of the pause after a reading. *)
Definition interval (k : sensor) : Z * Z :=
  match k with
  | Temperature => (10, 15)
  | Motion => (30, 60)
  | Window | Door => (100, 200)
  | Smoke => (100, 200)
  end.

(** The fields of a reading, in the order of the record. *)
Definition reading_fields (k : sensor) : list str :=
  match k with
  | Temperature => ["temperature"; "humidity"; "battery"; "linkquality"]
  | Motion | Smoke => ["on"; "alert"; "battery"; "linkquality"]
  | Window | Door => ["open"; "battery"; "linkquality"]
  end.

(** How many outcomes of [random] a reading takes before the pause is
    drawn. *)
Definition draws_of_reading (k : sensor) : nat :=
  match k with
  | Temperature => 4
  | _ => 3
  end.

(** The field of the command every transform reads. *)
Definition echoed (k : actuator) : str :=
  match k with
  | DoorA => "open"
  | ThermostatA | ShutterA => "active"
  | FireAlarmA => "alert"
  | LedBulbA => "on"
  end.

(** The field a thermostat or a shutter reads when it is active. *)
Definition setpoint (k : actuator) : option str :=
  match k with
  | ThermostatA => Some "state"
  | ShutterA => Some "percentage"
  | _ => None
  end.

(** The fields of the record a transform returns. *)
Definition transform_fields (k : actuator) : list str :=
  echoed k :: match setpoint k with
              | Some f => [f]
              | None => []
              end.

(** ** A world to run examples in *)

Module Demo.

Definition w0 : world :=
  {| randoms := fun n => (N.of_nat n * 1234567891 + 17)%N;
     random_pos := 0;
     uuids := fun n => (N.of_nat n + 305419896)%N;
     uuid_pos := 0;
     trace := [] |}.

(** [s] between quotes. *)
Definition quoted (s : string) : string :=
  String JsonRef.quote (s ++ String JsonRef.quote EmptyString).

(** The text [{"open": true}]. *)
Definition open_true : bytes := "{" ++ quoted "open" ++ ": true}".

(** The same text cut after the colon. *)
Definition cut_short : bytes := "{" ++ quoted "open" ++ ": ".

(** The text [{"active": false, "state": 5}]. *)
Definition inactive_5 : bytes :=
  "{" ++ quoted "active" ++ ": false, " ++ quoted "state" ++ ": 5}".

(** The text [{"active": 1, "percentage": 40}]. *)
Definition active_1 : bytes :=
  "{" ++ quoted "active" ++ ": 1, " ++ quoted "percentage" ++ ": 40}".

Definition door : MQTTActuator.t := new_actuator DoorA "livingroom-actuator-door".
Definition shutter : MQTTActuator.t :=
  new_actuator ShutterA "garage-actuator-shutter".
Definition thermostat : MQTTActuator.t :=
  new_actuator ThermostatA "kitchen1-actuator-thermostat".

(** A world whose outcomes of [random] are spread out: the second is about
    0.28 of the range, the third about 0.56. *)
Definition w1 : world :=
  {| randoms := fun n => (N.of_nat n * 2500000000000000 + 17)%N;
     random_pos := 0;
     uuids := fun n => (N.of_nat n + 305419896)%N;
     uuid_pos := 0;
     trace := [] |}.

(** The text [{"open": true, "color": "red"}]. *)
Definition open_true_red : bytes :=
  "{" ++ quoted "open" ++ ": true, " ++ quoted "color" ++ ": "
    ++ quoted "red" ++ "}".

(** The command [open_true_red], sent with the correlation token [abc]. *)
Definition red_command : MQTTMessage :=
  {| payload := open_true_red; CorrelationData := Some "abc"%string |}.

(** [w1] after the door has handled [red_command] once, and twice. *)
Definition handled : world :=
  snd (MQTTActuator.__on_message (H := exact_rounding)
         (H0 := JsonRef.lib (H := exact_rounding)) door red_command w1).
Definition handled_twice : world :=
  snd (MQTTActuator.__on_message (H := exact_rounding)
         (H0 := JsonRef.lib (H := exact_rounding)) door red_command handled).

End Demo.

(** ** The main program *)

Module Main.

(** The lists of the main program. *)
Record roster : Type := {
  temperature_sensors : list str;
  motion_sensors : list str;
  window_sensors : list str;
  door_sensors : list str;
  smoke_detectors : list str;
  led_actuators : list str;
  firealarm_actuators : list str;
  shutter_actuators : list str;
  door_actuators : list str;
  thermostat_actuators : list str
}.

(** The lists as the file has them. *)
Definition lists : roster :=
  {| temperature_sensors := ["livingroom"; "kitchen"; "bathroom"; "garage";
                             "garden1"; "garden2"; "garden3"];
     motion_sensors := ["livingroom"; "kitchen"; "bathroom"; "garage";
                        "garden1"; "garden2"; "garden3"];
     window_sensors := ["livingroom1"; "livingroom2"; "livingroom3";
                        "bathroom1"; "kitchen1"; "kitchen2"; "garage"];
     door_sensors := ["main"; "garage"];
     smoke_detectors := ["livingroom"; "kitchen"; "bathroom"; "garage"];
     led_actuators := ["livingroom1"; "livingroom2"; "kitchen1"; "kitchen2";
                       "bathroom"; "garden1"; "garden2"; "garage"];
     firealarm_actuators := ["livingroom"; "kitchen"; "bathroom"; "garage"];
     shutter_actuators := ["livingroom1"; "livingroom2"; "livingroom3";
                           "bathroom1"; "kitchen1"; "kitchen2"; "garage"];
     door_actuators := ["livingroom"; "kitchen"; "bathroom"; "garage"];
     thermostat_actuators := ["livingroom1"; "livingroom2"; "livingroom3";
                              "bathroom"; "kitchen1"; "kitchen2"; "garage"] |}.

Definition SENSORS_COUNT (r : roster) : nat :=
  length (temperature_sensors r) + length (motion_sensors r)
  + length (window_sensors r) + length (door_sensors r)
  + length (smoke_detectors r).

Definition ACTUATORS_COUNT (r : roster) : nat :=
  length (led_actuators r) + length (firealarm_actuators r)
  + length (shutter_actuators r) + length (door_actuators r)
  + length (thermostat_actuators r).

(** The class a device is made of. *)
Inductive class : Type :=
  | SensorC (k : sensor)
  | ActuatorC (k : actuator).

(** What the loop of a class puts after the entry of its list to name the
    device. *)
Definition suffix (c : class) : str :=
  match c with
  | SensorC Temperature => "-sensor-temperature"
  | SensorC Motion => "-sensor-motion"
  | SensorC Window => "-sensor-window"
  | SensorC Door => "-sensor-door"
  | SensorC Smoke => "-sensor-smokedetector"
  | ActuatorC LedBulbA => "-actuator-led"
  | ActuatorC FireAlarmA => "-actuator-firealarm"
  | ActuatorC ShutterA => "-actuator-shutter"
  | ActuatorC DoorA => "-actuator-door"
  | ActuatorC ThermostatA => "-actuator-thermostat"
  end.

(** [name] in the loop of class [c], for the entry [entry]. *)
Definition name (c : class) (entry : str) : str := entry ++ suffix c.

(** The list each loop goes through. *)
Definition entries (r : roster) (c : class) : list str :=
  match c with
  | SensorC Temperature => temperature_sensors r
  | SensorC Motion => motion_sensors r
  | SensorC Window => window_sensors r
  | SensorC Door => door_sensors r
  | SensorC Smoke => smoke_detectors r
  | ActuatorC LedBulbA => led_actuators r
  | ActuatorC FireAlarmA => firealarm_actuators r
  | ActuatorC ShutterA => shutter_actuators r
  | ActuatorC DoorA => door_actuators r
  | ActuatorC ThermostatA => thermostat_actuators r
  end.

(** The loops, in the order of the file. *)
Definition loops : list class :=
  [SensorC Temperature; SensorC Motion; SensorC Window; SensorC Door;
   SensorC Smoke; ActuatorC LedBulbA; ActuatorC FireAlarmA;
   ActuatorC ShutterA; ActuatorC DoorA; ActuatorC ThermostatA].

(** The devices the main program makes, in order: class and name. *)
Definition devices (r : roster) : list (class * str) :=
  flat_map (fun c => map (fun entry => (c, name c entry)) (entries r c)) loops.

(** The topic a device publishes on. *)
Definition topic_of (device : class * str) : str :=
  MQTTClient.topic (MQTTClient.__init__ (snd device)).

End Main.

(** ** More tables to state properties with *)

(** The field a sensor fills from its [decision] list, and the length of
    that list. *)
Definition decision_field (k : sensor) : option (str * Z) :=
  match k with
  | Temperature => None
  | Motion => Some ("alert", 8)
  | Window | Door => Some ("open", 8)
  | Smoke => Some ("alert", 11)
  end.

(** The handler of an actuator called for each message of a list in turn,
    as the one thread of the transport calls it, up to the first call that
    raises. *)
Fixpoint on_messages `{Rounding} `{JsonLib} (self : MQTTActuator.t)
    (messages : list MQTTMessage) : M unit :=
  match messages with
  | [] => ret tt
  | message :: rest =>
      MQTTActuator.__on_message self message ;;; on_messages self rest
  end.

(** What a handler of an actuator may do on the client: sleep, log, and
    publish on [topic] with QoS 2 and [retain] false. *)
Definition handler_event (topic : str) (e : event) : Prop :=
  match e with
  | Sleep _ | Log _ _ => True
  | Publish t qos _ _ retain => t = topic /\ qos = 2 /\ retain = false
  | _ => False
  end.

(** * Properties *)

Local Open Scope list_scope.

(** ** Rounding *)

Lemma round_half_even_cases (x : Q) :
  round_half_even x = Qfloor x \/
  (round_half_even x = Qfloor x + 1 /\ (inject_Z (Qfloor x) < x)%Q).
Proof.
  unfold round_half_even.
  destruct (Qcompare (x - inject_Z (Qfloor x)) (1 # 2)) eqn:E.
  - destruct (Z.even (Qfloor x)); [now left | right; split; [reflexivity |]].
    apply Qeq_alt in E. lra.
  - now left.
  - right; split; [reflexivity |]. apply Qgt_alt in E. lra.
Qed.

Lemma round_half_even_ge (x : Q) (m : Z) :
  (inject_Z m <= x)%Q -> m <= round_half_even x.
Proof.
  intros Hm.
  assert (m <= Qfloor x).
  { rewrite <- (Qfloor_Z m). now apply Qfloor_resp_le. }
  destruct (round_half_even_cases x) as [-> | [-> _]]; lia.
Qed.

Lemma round_half_even_le (x : Q) (m : Z) :
  (x <= inject_Z m)%Q -> round_half_even x <= m.
Proof.
  intros Hm.
  assert (Hf : Qfloor x <= m).
  { rewrite <- (Qfloor_Z m). now apply Qfloor_resp_le. }
  destruct (round_half_even_cases x) as [-> | [-> Hlt]]; [lia |].
  assert (Hfm : (inject_Z (Qfloor x) < inject_Z m)%Q) by lra.
  rewrite <- Zlt_Qlt in Hfm. lia.
Qed.

Lemma random_unit (k : N) :
  (0 <= Z.of_N (k mod 2 ^ 53)%N # 2 ^ 53)%Q /\
  (Z.of_N (k mod 2 ^ 53)%N # 2 ^ 53 < 1)%Q.
Proof.
  assert (k mod 2 ^ 53 < 2 ^ 53)%N by (apply N.mod_lt; discriminate).
  unfold Qle, Qlt; cbn [Qnum Qden].
  change (Z.pos (2 ^ 53)) with (Z.of_N (2 ^ 53)%N).
  generalize dependent (k mod 2 ^ 53)%N. generalize (2 ^ 53)%N. lia.
Qed.

Section Floats.
Context `{RL : RoundingLaws}.

Lemma fl_between (x : Q) (a b : Z) :
  Z.abs a <= 2 ^ 53 -> Z.abs b <= 2 ^ 53 ->
  (inject_Z a <= x)%Q -> (x <= inject_Z b)%Q ->
  (inject_Z a <= fl x)%Q /\ (fl x <= inject_Z b)%Q.
Proof.
  intros Ha Hb Hax Hxb. split.
  - rewrite <- (fl_int a Ha). now apply fl_mono.
  - rewrite <- (fl_int b Hb). now apply fl_mono.
Qed.

(** [round(x, 2)] stays between the integers that bound [x]. *)
Lemma round_between (x : Q) (a b : Z) :
  Z.abs a <= 2 ^ 53 -> Z.abs b <= 2 ^ 53 ->
  (inject_Z a <= x)%Q -> (x <= inject_Z b)%Q ->
  (inject_Z a <= round x 2)%Q /\ (round x 2 <= inject_Z b)%Q.
Proof.
  intros Ha Hb Hax Hxb. unfold round.
  change (inject_Z (10 ^ Z.of_nat 2)) with (inject_Z 100).
  apply fl_between; try assumption.
  - assert (100 * a <= round_half_even (x * inject_Z 100)).
    { apply round_half_even_ge. rewrite inject_Z_mult. 
      change (inject_Z 100) with (100 # 1)%Q. lra. }
    apply Qle_shift_div_l; [reflexivity |].
    rewrite <- inject_Z_mult. rewrite <- Zle_Qle. lia.
  - assert (round_half_even (x * inject_Z 100) <= 100 * b).
    { apply round_half_even_le. rewrite inject_Z_mult.
      change (inject_Z 100) with (100 # 1)%Q. lra. }
    apply Qle_shift_div_r; [reflexivity |].
    rewrite <- inject_Z_mult. rewrite <- Zle_Qle. lia.
Qed.

Lemma round_two_decimals (x : Q) : two_decimals (round x 2).
Proof.
  exists (round_half_even (x * inject_Z 100)). unfold round.
  apply fl_proper.
  change (inject_Z (10 ^ Z.of_nat 2)) with (inject_Z 100).
  unfold Qeq, Qdiv, Qinv, Qmult, inject_Z; cbn [Qnum Qden]. lia.
Qed.

(** What [get_next_random] returns, for bounds that are floats. *)
Lemma get_next_random_spec (lower upper : Z) (w : world) :
  lower <= upper -> Z.abs lower <= 2 ^ 52 -> Z.abs upper <= 2 ^ 52 ->
  exists v : Q,
    get_next_random lower upper w = (Ok v, consume_random w) /\
    (inject_Z lower <= v)%Q /\ (v <= inject_Z upper)%Q /\ two_decimals v.
Proof.
  intros Hle Hl Hu. eexists. split; [reflexivity |].
  destruct (random_unit (randoms w (random_pos w))) as [H0 H1].
  set (r := (Z.of_N (randoms w (random_pos w) mod 2 ^ 53)%N # 2 ^ 53)%Q) in *.
  assert (Hw : Z.abs (upper - lower) <= 2 ^ 53) by lia.
  assert (Hl' : Z.abs lower <= 2 ^ 53) by lia.
  assert (Hu' : Z.abs upper <= 2 ^ 53) by lia.
  assert (Hp : (0 <= fl (fl (inject_Z (upper - lower)) * r))%Q /\
               (fl (fl (inject_Z (upper - lower)) * r)
                <= inject_Z (upper - lower))%Q).
  { apply (fl_between _ 0 (upper - lower)); [lia | assumption | |].
    - rewrite (fl_int _ Hw). apply Qmult_le_0_compat; [| assumption].
      change 0%Q with (inject_Z 0). rewrite <- Zle_Qle. lia.
    - rewrite (fl_int _ Hw).
      assert (0 <= inject_Z (upper - lower))%Q.
      { change 0%Q with (inject_Z 0). rewrite <- Zle_Qle. lia. }
      nra. }
  destruct Hp as [Hp0 Hp1].
  set (p := fl (fl (inject_Z (upper - lower)) * r)) in *.
  assert (Hs : (inject_Z lower <= fl (fl (inject_Z lower) + p))%Q /\
               (fl (fl (inject_Z lower) + p) <= inject_Z upper)%Q).
  { apply fl_between; try assumption.
    - rewrite (fl_int _ Hl'). lra.
    - rewrite (fl_int _ Hl'). unfold Zminus in Hp1.
      rewrite inject_Z_plus, inject_Z_opp in Hp1. lra. }
  destruct Hs as [Hs0 Hs1].
  destruct (round_between _ lower upper Hl' Hu' Hs0 Hs1) as [Hr0 Hr1].
  repeat split; try assumption. apply round_two_decimals.
Qed.

End Floats.

Lemma exact_rounding_laws : RoundingLaws exact_rounding.
Proof.
  split; cbn [fl exact_rounding]; intros; first [assumption | reflexivity].
Qed.

(** ** Running statements *)

Lemma bind_ok {A B} (m : M A) (f : A -> M B) (w w' : world) (a : A) :
  m w = (Ok a, w') -> bind m f w = f a w'.
Proof. intros E. unfold bind. now rewrite E. Qed.

Lemma randint_run (a b : Z) (w : world) :
  a <= b ->
  randint a b w
  = (Ok (a + Z.of_N (randoms w (random_pos w)) mod (b - a + 1)),
     consume_random w).
Proof.
  intros Hab. unfold randint.
  destruct (b <? a) eqn:E; [lia | reflexivity].
Qed.

Lemma randint_range (a b : Z) (k : N) :
  a <= b -> a <= a + Z.of_N k mod (b - a + 1) <= b.
Proof.
  intros Hab.
  pose proof (Z.mod_pos_bound (Z.of_N k) (b - a + 1)). lia.
Qed.

Lemma get_next_random_total `{Rounding} (lower upper : Z) (w : world) :
  exists v : Q, get_next_random lower upper w = (Ok v, consume_random w).
Proof. eexists. reflexivity. Qed.

Lemma index_ok (decision : list bool) (i : Z) :
  0 <= i < Z.of_nat (length decision) ->
  exists b : bool, index decision i = Ok b.
Proof.
  intros Hi. unfold index.
  destruct (_ || _) eqn:E; [lia |].
  rewrite Z.mod_small by lia.
  destruct (decision !! Z.to_nat i) eqn:L; [eauto |].
  apply lookup_ge_None in L. lia.
Qed.

(** ** UUID text *)

Module UuidFacts.
Import Uuid.

Lemma digit_value_hex_digit (d : N) :
  (d < 16)%N -> digit_value (hex_digit d) = d.
Proof.
  intros Hd.
  assert (Hcases : In d (map N.of_nat (seq 0 16))).
  { apply in_map_iff. exists (N.to_nat d). split; [lia |].
    apply in_seq. lia. }
  cbn in Hcases.
  repeat (destruct Hcases as [<- | Hcases]; [reflexivity |]).
  destruct Hcases.
Qed.

Lemma length_hex (width : nat) (n : N) : length (hex width n) = width.
Proof.
  revert n. induction width as [| width IH]; intros n; [reflexivity |].
  cbn [hex]. rewrite length_app, IH. cbn. lia.
Qed.

Lemma unhex_hex (width : nat) (n : N) :
  unhex (hex width n) = (n mod 16 ^ N.of_nat width)%N.
Proof.
  revert n. induction width as [| width IH]; intros n.
  - cbn. now rewrite N.mod_1_r.
  - cbn [hex]. unfold unhex in *. rewrite fold_left_app. cbn [fold_left].
    rewrite IH, digit_value_hex_digit by (apply N.mod_lt; discriminate).
    rewrite Nat2N.inj_succ, N.pow_succ_r'.
    rewrite (N.Div0.mod_mul_r n 16 (16 ^ N.of_nat width)). lia.
Qed.

Lemma ungroup_group (h : list ascii) :
  length h = 32%nat ->
  ungroup (take 8 h ++ ["-"%char] ++ take 4 (drop 8 h) ++ ["-"%char]
             ++ take 4 (drop 12 h) ++ ["-"%char] ++ take 4 (drop 16 h)
             ++ ["-"%char] ++ drop 20 h) = h.
Proof.
  intros Hlen.
  do 32 (destruct h as [| ? h]; [discriminate Hlen |]).
  destruct h; [reflexivity | discriminate Hlen].
Qed.

Lemma to_str_length (u : uuid) : String.length (to_str u) = 36%nat.
Proof.
  unfold to_str.
  pose proof (length_hex 32 (u mod 2 ^ 128)) as Hlen.
  set (h := hex 32 (u mod 2 ^ 128)) in *. clearbody h.
  do 32 (destruct h as [| ? h]; [discriminate Hlen |]).
  destruct h; [reflexivity | discriminate Hlen].
Qed.

Lemma to_str_nonempty (u : uuid) : to_str u <> "".
Proof.
  intros E. pose proof (to_str_length u) as L. rewrite E in L. discriminate L.
Qed.

(** Two UUIDs with the same text are the same 128 bits. *)
Lemma to_str_inj (u1 u2 : uuid) :
  to_str u1 = to_str u2 -> (u1 mod 2 ^ 128 = u2 mod 2 ^ 128)%N.
Proof.
  unfold to_str. intros E.
  apply (f_equal String.list_ascii_of_string) in E.
  rewrite !String.list_ascii_of_string_of_list_ascii in E.
  apply (f_equal ungroup) in E.
  rewrite !ungroup_group in E by apply length_hex.
  apply (f_equal unhex) in E. rewrite !unhex_hex in E.
  change (16 ^ N.of_nat 32)%N with (2 ^ 128)%N in E.
  now rewrite !N.Div0.mod_mod in E.
Qed.

End UuidFacts.

(** ** [publish] and the handler of an actuator *)

Lemma publish_fresh (self : MQTTClient.t) (p : json_text)
    (correlation_data : option bytes) (w : world) :
  MQTTClient.not_ correlation_data = true ->
  MQTTClient.publish self p correlation_data w
  = (Ok tt,
     record (Publish (MQTTClient.topic self) 2 p
               (Uuid.to_str (uuids w (uuid_pos w))) false)
       (consume_uuid w)).
Proof.
  intros Hn. unfold MQTTClient.publish.
  destruct correlation_data as [c |]; [rewrite Hn |]; reflexivity.
Qed.

Lemma publish_given (self : MQTTClient.t) (p : json_text) (c : bytes)
    (w : world) :
  c <> "" ->
  MQTTClient.publish self p (Some c) w
  = (Ok tt, record (Publish (MQTTClient.topic self) 2 p c false) w).
Proof.
  intros Hc. unfold MQTTClient.publish.
  assert (Hn : MQTTClient.not_ (Some c) = false).
  { cbn. now apply String.eqb_neq. }
  rewrite Hn. reflexivity.
Qed.

(** The handler's delay in [w]: one to ten milliseconds. *)
Lemma delay_range (w : world) :
  1 <= 1 + Z.of_N (randoms w (random_pos w)) mod (10 - 1 + 1) <= 10.
Proof. apply randint_range. lia. Qed.

(** The statements of [__on_message] up to the call of [publish], when
    every one of them returns: the delay, the record logged, the two draws;
    [publish] then runs in [w1] on the record [out]. *)
Lemma on_message_run `{Rounding} `{JsonLib} (self : MQTTActuator.t)
    (message : MQTTMessage) (w : world) (text : str) (cmd : value)
    (d : dict) (c : bytes) :
  decode (payload message) = Ok text ->
  json_loads text = Ok cmd ->
  MQTTActuator.simulation self cmd = Ok (VDict d) ->
  CorrelationData message = Some c ->
  exists (ms : Z) (battery linkquality : Q) (wb wl w1 : world),
    1 <= ms <= 10 /\
    get_next_random 89 92 wb = (Ok battery, consume_random wb) /\
    get_next_random 50 255 wl = (Ok linkquality, consume_random wl) /\
    randoms wb = randoms w /\ random_pos wb = S (random_pos w) /\
    wl = consume_random wb /\
    trace w1
    = trace w ++ [Sleep (fl (ms # 1000));
                  Log INFO (LogReceivedMessage
                              (MQTTClient.name (MQTTActuator.client self))
                              cmd)] /\
    uuids w1 = uuids w /\ uuid_pos w1 = uuid_pos w /\
    MQTTActuator.__on_message self message w
    = MQTTClient.publish (MQTTActuator.client self)
        (json_dumps
           (VDict (dict_set "linkquality" (VFloat linkquality)
                     (dict_set "battery" (VFloat battery) d))))
        (Some c) w1.
Proof.
  intros Hdec Hload Hsim Hcd.
  unfold MQTTActuator.__on_message.
  rewrite (bind_ok _ _ _ _ _ (randint_run 1 10 w ltac:(lia))).
  unfold sleep, MQTTActuator.get_CorrelationData.
  rewrite Hdec, Hcd.
  set (w1 := consume_random w).
  set (ms := 1 + Z.of_N (randoms w (random_pos w)) mod (10 - 1 + 1)).
  set (w2 := record (Sleep (fl (ms # 1000))) w1).
  set (w3 := record (Log INFO (LogReceivedMessage
                                 (MQTTClient.name (MQTTActuator.client self))
                                 cmd)) w2).
  destruct (get_next_random_total 89 92 w3) as [battery Hb].
  destruct (get_next_random_total 50 255 (consume_random w3))
    as [linkquality Hl].
  exists ms, battery, linkquality, w3, (consume_random w3),
    (consume_random (consume_random w3)).
  split; [apply delay_range |]. split; [exact Hb |]. split; [exact Hl |].
  do 3 (split; [reflexivity |]).
  split; [cbn; now rewrite <- !app_assoc |].
  split; [reflexivity |]. split; [reflexivity |].
  unfold bind at 1. cbn [emit]. fold w2.
  unfold bind at 1. unfold lift at 1.
  unfold bind at 1. unfold lift at 1. rewrite Hload.
  unfold bind at 1. cbn [emit]. fold w3.
  unfold bind at 1. unfold lift at 1. rewrite Hsim.
  rewrite (bind_ok _ _ _ _ _ Hb).
  unfold bind at 1. unfold lift at 1. cbn [setitem].
  rewrite (bind_ok _ _ _ _ _ Hl).
  unfold bind at 1. unfold lift at 1. cbn [setitem].
  unfold bind at 1. unfold lift at 1.
  reflexivity.
Qed.

Section HandlerFailures.
Context `{Rounding} `{JsonLib}.
Variables (self : MQTTActuator.t) (message : MQTTMessage) (w : world).

Let ms : Z := 1 + Z.of_N (randoms w (random_pos w)) mod (10 - 1 + 1).
Let w_slept : world := record (Sleep (fl (ms # 1000))) (consume_random w).

(** The payload does not decode or does not parse: the exception leaves
    the handler after the delay. *)
Lemma on_message_decode_error (e : exn) :
  decode (payload message) = Raise e ->
  MQTTActuator.__on_message self message w = (Raise e, w_slept).
Proof.
  intros Hdec. unfold MQTTActuator.__on_message.
  rewrite (bind_ok _ _ _ _ _ (randint_run 1 10 w ltac:(lia))).
  unfold sleep. unfold bind at 1. cbn [emit].
  unfold bind at 1. unfold lift at 1. rewrite Hdec. reflexivity.
Qed.

Lemma on_message_loads_error (text : str) (e : exn) :
  decode (payload message) = Ok text ->
  json_loads text = Raise e ->
  MQTTActuator.__on_message self message w = (Raise e, w_slept).
Proof.
  intros Hdec Hload. unfold MQTTActuator.__on_message.
  rewrite (bind_ok _ _ _ _ _ (randint_run 1 10 w ltac:(lia))).
  unfold sleep. unfold bind at 1. cbn [emit].
  unfold bind at 1. unfold lift at 1. rewrite Hdec.
  unfold bind at 1. unfold lift at 1. rewrite Hload. reflexivity.
Qed.

(** The transform raises: the command was logged, nothing is published. *)
Lemma on_message_simulation_error (text : str) (cmd : value) (e : exn) :
  decode (payload message) = Ok text ->
  json_loads text = Ok cmd ->
  MQTTActuator.simulation self cmd = Raise e ->
  MQTTActuator.__on_message self message w
  = (Raise e,
     record (Log INFO (LogReceivedMessage
                         (MQTTClient.name (MQTTActuator.client self)) cmd))
       w_slept).
Proof.
  intros Hdec Hload Hsim. unfold MQTTActuator.__on_message.
  rewrite (bind_ok _ _ _ _ _ (randint_run 1 10 w ltac:(lia))).
  unfold sleep. unfold bind at 1. cbn [emit].
  unfold bind at 1. unfold lift at 1. rewrite Hdec.
  unfold bind at 1. unfold lift at 1. rewrite Hload.
  unfold bind at 1. cbn [emit].
  unfold bind at 1. unfold lift at 1. rewrite Hsim. reflexivity.
Qed.

(** Whatever else goes wrong, the handler raises without publishing: the
    trace gains the delay and the record logged, nothing more. *)
Lemma on_message_no_response (text : str) (cmd out : value) :
  decode (payload message) = Ok text ->
  json_loads text = Ok cmd ->
  MQTTActuator.simulation self cmd = Ok out ->
  (forall d, out <> VDict d) \/ CorrelationData message = None ->
  exists (e : exn) (w' : world),
    MQTTActuator.__on_message self message w = (Raise e, w') /\
    trace w'
    = trace w ++ [Sleep (fl (ms # 1000));
                  Log INFO (LogReceivedMessage
                              (MQTTClient.name (MQTTActuator.client self))
                              cmd)].
Proof.
  intros Hdec Hload Hsim Hwhy. unfold MQTTActuator.__on_message.
  rewrite (bind_ok _ _ _ _ _ (randint_run 1 10 w ltac:(lia))).
  unfold sleep. unfold bind at 1. cbn [emit].
  unfold bind at 1. unfold lift at 1. rewrite Hdec.
  unfold bind at 1. unfold lift at 1. rewrite Hload.
  unfold bind at 1. cbn [emit].
  unfold bind at 1. unfold lift at 1. rewrite Hsim.
  match goal with
  | |- context [bind (get_next_random 89 92) _ ?w3] =>
      destruct (get_next_random_total 89 92 w3) as [battery Hb];
      rewrite (bind_ok _ _ _ _ _ Hb);
      destruct (get_next_random_total 50 255 (consume_random w3))
        as [linkquality Hl]
  end.
  unfold bind at 1. unfold lift at 1.
  destruct out as [| | | | | | d];
    try (eexists _, _; split; [reflexivity | cbn; now rewrite <- !app_assoc]).
  destruct Hwhy as [Hnot | Hnone]; [now destruct (Hnot d) |].
  cbn [setitem]. rewrite (bind_ok _ _ _ _ _ Hl).
  unfold bind at 1. unfold lift at 1. cbn [setitem].
  unfold MQTTActuator.get_CorrelationData. rewrite Hnone.
  unfold bind at 1. unfold lift at 1.
  eexists _, _; split; [reflexivity | cbn; now rewrite <- !app_assoc].
Qed.

End HandlerFailures.

(** ** Correlation of a response with its command *)

(** C1, as amended.  Whenever [MQTTActuator.__on_message] returns, the
    command carried correlation data [c] and exactly one message was
    published, last, on the actuator's topic: it carries [c] when [c] is
    not empty; for the empty [c] it carries the text of a new UUID
    instead, which differs from [c]. *)
Theorem on_message_correlation `{Rounding} `{JsonLib}
    (self : MQTTActuator.t) (message : MQTTMessage) (w w' : world) :
  MQTTActuator.__on_message self message w = (Ok tt, w') ->
  exists (c : bytes) (ms : Z) (cmd out : value) (token : bytes),
    CorrelationData message = Some c /\
    trace w'
    = trace w ++ [Sleep (fl (ms # 1000));
                  Log INFO (LogReceivedMessage
                              (MQTTClient.name (MQTTActuator.client self))
                              cmd);
                  Publish (MQTTClient.topic (MQTTActuator.client self)) 2
                    (json_dumps out) token false] /\
    (c <> "" -> token = c) /\
    (c = "" -> token = Uuid.to_str (uuids w (uuid_pos w)) /\ token <> c).
Proof.
  intros Hrun.
  destruct (decode (payload message)) as [text | e] eqn:Hdec;
    [| rewrite (on_message_decode_error _ _ _ _ Hdec) in Hrun;
       discriminate Hrun].
  destruct (json_loads text) as [cmd | e] eqn:Hload;
    [| rewrite (on_message_loads_error _ _ _ _ _ Hdec Hload) in Hrun;
       discriminate Hrun].
  destruct (MQTTActuator.simulation self cmd) as [out | e] eqn:Hsim;
    [| rewrite (on_message_simulation_error _ _ _ _ _ _ Hdec Hload Hsim)
         in Hrun; discriminate Hrun].
  assert (Hshape : (exists d, out = VDict d) /\
                   (exists c, CorrelationData message = Some c)).
  { destruct (CorrelationData message) as [c |] eqn:Hcd.
    - split; [| eauto].
      destruct out as [| | | | | | d]; [| | | | | | eauto];
        (destruct (on_message_no_response self message w _ _ _
                     Hdec Hload Hsim) as (e & w'' & E & _);
         [left; discriminate | rewrite E in Hrun; discriminate Hrun]).
    - destruct (on_message_no_response self message w _ _ _
                  Hdec Hload Hsim) as (e & w'' & E & _);
        [now right | rewrite E in Hrun; discriminate Hrun]. }
  destruct Hshape as [[d ->] [c Hcd]].
  destruct (on_message_run self message w _ _ _ _ Hdec Hload Hsim Hcd)
    as (ms & battery & linkquality & wb & wl & w1 & _ & _ & _ & _ & _ & _
        & Htr & Hus & Hup & E).
  rewrite E in Hrun. clear E.
  destruct (String.eqb_spec c "") as [-> | Hne].
  - rewrite publish_fresh in Hrun by reflexivity.
    injection Hrun as <-.
    eexists "", ms, cmd, _, _. split; [exact Hcd |].
    split; [cbn; rewrite Htr, <- app_assoc; reflexivity |].
    split; [intros Hc; now destruct Hc |].
    intros _. rewrite Hus, Hup. split; [reflexivity |].
    apply UuidFacts.to_str_nonempty.
  - rewrite publish_given in Hrun by assumption.
    injection Hrun as <-.
    eexists c, ms, cmd, _, _. split; [exact Hcd |].
    split; [cbn; rewrite Htr, <- app_assoc; reflexivity |].
    split; [reflexivity |]. intros Hc. now destruct Hne.
Qed.

(** The door of the living room answers [{"open": true}] sent with the
    correlation data [abc]. *)
Lemma on_message_correlation_witness :
  exists (c : bytes) (ms : Z) (cmd out : value) (token : bytes),
    Some "abc"%string = Some c /\
    trace (snd (MQTTActuator.__on_message (H := exact_rounding)
                  (H0 := JsonRef.lib (H := exact_rounding)) Demo.door
                  {| payload := Demo.open_true;
                     CorrelationData := Some "abc"%string |} Demo.w0))
    = [] ++ [Sleep (ms # 1000);
             Log INFO (LogReceivedMessage "livingroom-actuator-door" cmd);
             Publish "mind2/livingroom-actuator-door" 2 (json_dumps out)
               token false] /\
    (c <> ""%string -> token = c) /\
    (c = ""%string ->
     token = Uuid.to_str (uuids Demo.w0 (uuid_pos Demo.w0)) /\ token <> c).
Proof.
  apply (on_message_correlation (H := exact_rounding)
           (H0 := JsonRef.lib (H := exact_rounding)) Demo.door
           {| payload := Demo.open_true;
              CorrelationData := Some "abc"%string |} Demo.w0).
  vm_compute. reflexivity.
Defined.

(** C1 as stated fails on a command whose correlation data is empty: the
    response of the door carries the text of a UUID, not the empty
    correlation data of the command. *)
Lemma on_message_empty_correlation :
  exists (w' : world) (token : bytes),
    MQTTActuator.__on_message (H := exact_rounding)
      (H0 := JsonRef.lib (H := exact_rounding)) Demo.door
      {| payload := Demo.open_true; CorrelationData := Some ""%string |}
      Demo.w0 = (Ok tt, w') /\
    published (trace w') = [("mind2/livingroom-actuator-door"%string, token)] /\
    token = "00000000-0000-0000-0000-000012345678"%string /\
    token <> ""%string.
Proof.
  eexists _, _. split; [vm_compute; reflexivity |].
  split; [vm_compute; reflexivity |]. split; [reflexivity | discriminate].
Qed.

(** ** Observations *)

Lemma published_app (tr tr' : list event) :
  published (tr ++ tr') = published tr ++ published tr'.
Proof. unfold published. apply omap_app. Qed.

Lemma subscriptions_snoc (tr : list event) (e : event) :
  subscriptions (tr ++ [e])
  = match e with
    | Subscribe topic _ => subscriptions tr ∪ {[ topic ]}
    | Unsubscribe topic => subscriptions tr ∖ {[ topic ]}
    | _ => subscriptions tr
    end.
Proof. unfold subscriptions. now rewrite fold_left_app. Qed.

Lemma subscriptions_sleeps (tr : list event) (s : Q) (n : nat) :
  subscriptions (tr ++ repeat (Sleep s) n) = subscriptions tr.
Proof.
  induction n as [| n IH]; [now rewrite app_nil_r |].
  cbn [repeat]. rewrite repeat_cons, app_assoc, subscriptions_snoc. exact IH.
Qed.

(** ** A payload that does not parse *)

(** C2, as amended.  When the payload of a message fails to decode as
    UTF-8 or to parse as JSON, [MQTTActuator.__on_message] raises that
    exception out of the handler, after its delay of one to ten
    milliseconds: it logs nothing and publishes nothing for the message,
    and the subscriptions stay as they were. *)
Theorem on_message_malformed `{Rounding} `{JsonLib}
    (self : MQTTActuator.t) (message : MQTTMessage) (w : world) (e : exn) :
  decode (payload message) = Raise e \/
  (exists text, decode (payload message) = Ok text /\
                json_loads text = Raise e) ->
  exists (ms : Z) (w' : world),
    1 <= ms <= 10 /\
    MQTTActuator.__on_message self message w = (Raise e, w') /\
    trace w' = trace w ++ [Sleep (fl (ms # 1000))] /\
    published (trace w') = published (trace w) /\
    subscriptions (trace w') = subscriptions (trace w).
Proof.
  intros Hbad.
  exists (1 + Z.of_N (randoms w (random_pos w)) mod (10 - 1 + 1)).
  eexists. split; [apply delay_range |]. split.
  - destruct Hbad as [Hdec | (text & Hdec & Hload)].
    + exact (on_message_decode_error self message w e Hdec).
    + exact (on_message_loads_error self message w text e Hdec Hload).
  - cbn [trace record consume_random]. split; [reflexivity |].
    split; [| now rewrite subscriptions_snoc].
    rewrite published_app. cbn. now rewrite app_nil_r.
Qed.

(** The door of the living room receives a JSON text cut short. *)
Lemma on_message_malformed_witness :
  exists (ms : Z) (w' : world),
    1 <= ms <= 10 /\
    MQTTActuator.__on_message (H := exact_rounding)
      (H0 := JsonRef.lib (H := exact_rounding)) Demo.door
      {| payload := Demo.cut_short; CorrelationData := Some "abc"%string |}
      Demo.w0 = (Raise JSONDecodeError, w') /\
    trace w' = trace Demo.w0 ++ [Sleep (ms # 1000)] /\
    published (trace w') = published (trace Demo.w0) /\
    subscriptions (trace w') = subscriptions (trace Demo.w0).
Proof.
  apply (on_message_malformed (H := exact_rounding)
           (H0 := JsonRef.lib (H := exact_rounding)) Demo.door
           {| payload := Demo.cut_short; CorrelationData := Some "abc"%string |}
           Demo.w0 JSONDecodeError).
  right. exists Demo.cut_short. split; vm_compute; reflexivity.
Defined.

(** C2 as stated fails on the payload [not json]: the handler of the door
    does not return, it raises [JSONDecodeError], and the only effect is
    its delay, no record is logged. *)
Lemma on_message_not_json :
  exists w' : world,
    MQTTActuator.__on_message (H := exact_rounding)
      (H0 := JsonRef.lib (H := exact_rounding)) Demo.door
      {| payload := "not json"; CorrelationData := Some "abc"%string |}
      Demo.w0 = (Raise JSONDecodeError, w') /\
    trace w' = [Sleep (8 # 1000)].
Proof.
  eexists. split; vm_compute; reflexivity.
Qed.

(** ** Shutdown of an actuator *)

Lemma append_length (a b : string) :
  String.length (a ++ b)%string = (String.length a + String.length b)%nat.
Proof.
  induction a as [| c a IH]; [reflexivity |].
  change (String c a ++ b)%string with (String c (a ++ b)%string).
  cbn [String.length]. now rewrite IH.
Qed.

Lemma command_topic_differs (topic : str) :
  (topic ++ "/toggleState")%string <> topic.
Proof.
  intros E. apply (f_equal String.length) in E.
  rewrite append_length in E. cbn in E. lia.
Qed.

(** The loop of an actuator that reads [True] [n] times and then [False]:
    [n] sleeps, then the two calls of the shutdown. *)
Lemma actuator_loop_run `{Rounding} (self : MQTTActuator.t) (n : nat)
    (rest : list bool) (w : world) :
  exists w' : world,
    MQTTActuator.loop self (repeat true n ++ false :: rest) w = (Ok true, w') /\
    trace w'
    = trace w ++ repeat (Sleep (fl (1 # 10))) n
        ++ [Unsubscribe (MQTTClient.topic (MQTTActuator.client self));
            Disconnect].
Proof.
  revert w. induction n as [| n IH]; intros w.
  - eexists. split; [reflexivity |]. cbn. now rewrite <- app_assoc.
  - destruct (IH (record (Sleep (fl (1 # 10))) w)) as (w' & Hrun & Htr).
    exists w'. split; [exact Hrun |].
    rewrite Htr. cbn. now rewrite <- app_assoc.
Qed.

(** C3 on the code.  An actuator whose connection was accepted subscribes
    to [<topic>/toggleState]; when [SIMULATION_ALIVE] is read false its
    loop ends with [unsubscribe(<topic>)], a topic it never subscribed
    to, and [disconnect()]: the subscription to [<topic>/toggleState] is
    still there when the client disconnects. *)
Theorem actuator_shutdown_keeps_subscription `{Rounding} (k : actuator)
    (actuator_name : str) (n : nat) (w : world) :
  let self := new_actuator k actuator_name in
  let topic := MQTTClient.topic (MQTTActuator.client self) in
  exists w1 w2 : world,
    MQTTActuator.__on_connect self 0 w = (Ok tt, w1) /\
    MQTTActuator.loop self (repeat true n ++ [false]) w1 = (Ok true, w2) /\
    trace w2
    = trace w
        ++ [Log INFO (LogConnected actuator_name MQTTClient.broker_url
                        MQTTClient.broker_port);
            Subscribe (topic ++ "/toggleState")%string 2]
        ++ repeat (Sleep (fl (1 # 10))) n
        ++ [Unsubscribe topic; Disconnect] /\
    subscriptions (trace w2)
    = (subscriptions (trace w) ∪ {[ (topic ++ "/toggleState")%string ]})
        ∖ {[ topic ]} /\
    (topic ++ "/toggleState")%string ∈ subscriptions (trace w2).
Proof.
  intros self topic.
  eexists. 
  destruct (actuator_loop_run self n []
              (record (Subscribe (topic ++ "/toggleState")%string 2)
                 (record (Log INFO (LogConnected actuator_name
                                      MQTTClient.broker_url
                                      MQTTClient.broker_port)) w)))
    as (w2 & Hrun & Htr).
  exists w2. split; [reflexivity |]. split; [exact Hrun |].
  assert (Htrace :
    trace w2
    = (((trace w
         ++ [Log INFO (LogConnected actuator_name MQTTClient.broker_url
                         MQTTClient.broker_port)])
        ++ [Subscribe (topic ++ "/toggleState")%string 2])
       ++ repeat (Sleep (fl (1 # 10))) n
       ++ [Unsubscribe topic]) ++ [Disconnect]).
  { rewrite Htr. cbn [trace record]. now rewrite <- !app_assoc. }
  assert (Hsubs :
    subscriptions (trace w2)
    = (subscriptions (trace w) ∪ {[ (topic ++ "/toggleState")%string ]})
        ∖ {[ topic ]}).
  { rewrite Htrace, subscriptions_snoc, app_assoc, subscriptions_snoc.
    now rewrite subscriptions_sleeps, !subscriptions_snoc. }
  split; [rewrite Htrace; now rewrite <- !app_assoc |].
  split; [exact Hsubs |].
  rewrite Hsubs. apply elem_of_difference. split.
  - apply elem_of_union_r. now apply elem_of_singleton.
  - rewrite elem_of_singleton. apply command_topic_differs.
Qed.

(** ** Records *)

Lemma dict_get_set_eq (k : str) (v : value) (d : dict) :
  dict_get k (dict_set k v d) = Some v.
Proof.
  induction d as [| [k' v'] d IH]; cbn.
  - now rewrite String.eqb_refl.
  - destruct (String.eqb k k') eqn:E; cbn; rewrite E; [reflexivity | exact IH].
Qed.

Lemma dict_get_set_ne (k k' : str) (v : value) (d : dict) :
  k <> k' -> dict_get k' (dict_set k v d) = dict_get k' d.
Proof.
  intros Hne. induction d as [| [k0 v0] d IH]; cbn.
  - apply String.eqb_neq in Hne. rewrite String.eqb_sym in Hne.
    now rewrite Hne.
  - destruct (String.eqb k k0) eqn:E; cbn; [| now rewrite IH].
    apply String.eqb_eq in E. subst k0.
    apply String.eqb_neq in Hne. rewrite String.eqb_sym in Hne.
    now rewrite Hne.
Qed.

Lemma keys_dict_set (k : str) (v : value) (d : dict) :
  keys (dict_set k v d)
  = match dict_get k d with
    | Some _ => keys d
    | None => keys d ++ [k]
    end.
Proof.
  induction d as [| [k' v'] d IH]; cbn; [reflexivity |].
  destruct (String.eqb k k') eqn:E; cbn; [reflexivity |].
  unfold keys in IH. rewrite IH. now destruct (dict_get k d).
Qed.

Lemma elem_of_keys_dict_set (key k : str) (v : value) (d : dict) :
  key ∈ keys (dict_set k v d) <-> key ∈ keys d \/ key = k.
Proof.
  rewrite keys_dict_set. destruct (dict_get k d) as [v' |] eqn:E.
  - split; [now left |]. intros [Hin | ->]; [exact Hin |].
    clear v. induction d as [| [k0 v0] d IH]; [discriminate E |].
    cbn in E |- *. destruct (String.eqb k k0) eqn:Ek.
    + apply String.eqb_eq in Ek. subst k0. apply list_elem_of_here.
    + apply list_elem_of_further. now apply IH.
  - rewrite elem_of_app, list_elem_of_singleton. reflexivity.
Qed.

(** ** A command that is answered *)

Lemma publish_total (self : MQTTClient.t) (p : json_text)
    (correlation_data : option bytes) (w : world) :
  exists (token : bytes) (w' : world),
    MQTTClient.publish self p correlation_data w = (Ok tt, w') /\
    trace w' = trace w ++ [Publish (MQTTClient.topic self) 2 p token false].
Proof.
  destruct (MQTTClient.not_ correlation_data) eqn:Hn.
  - rewrite publish_fresh by assumption. eexists _, _. split; reflexivity.
  - destruct correlation_data as [c |]; [| discriminate Hn].
    rewrite publish_given by (now apply String.eqb_neq).
    eexists _, _. split; reflexivity.
Qed.

(** The handler returns only when the payload decodes and parses, the
    transform returns a record and the message has correlation data. *)
Lemma on_message_inv `{Rounding} `{JsonLib} (self : MQTTActuator.t)
    (message : MQTTMessage) (w w' : world) :
  MQTTActuator.__on_message self message w = (Ok tt, w') ->
  exists (text : str) (cmd : value) (d : dict) (c : bytes),
    decode (payload message) = Ok text /\
    json_loads text = Ok cmd /\
    MQTTActuator.simulation self cmd = Ok (VDict d) /\
    CorrelationData message = Some c.
Proof.
  intros Hrun.
  destruct (decode (payload message)) as [text | e] eqn:Hdec;
    [| rewrite (on_message_decode_error _ _ _ _ Hdec) in Hrun;
       discriminate Hrun].
  destruct (json_loads text) as [cmd | e] eqn:Hload;
    [| rewrite (on_message_loads_error _ _ _ _ _ Hdec Hload) in Hrun;
       discriminate Hrun].
  destruct (MQTTActuator.simulation self cmd) as [out | e] eqn:Hsim;
    [| rewrite (on_message_simulation_error _ _ _ _ _ _ Hdec Hload Hsim)
         in Hrun; discriminate Hrun].
  destruct (CorrelationData message) as [c |] eqn:Hcd.
  - destruct out as [| | | | | | d]; [| | | | | | now eauto 10];
      (destruct (on_message_no_response self message w _ _ _
                   Hdec Hload Hsim) as (e & w'' & E & _);
       [left; discriminate | rewrite E in Hrun; discriminate Hrun]).
  - destruct (on_message_no_response self message w _ _ _
                Hdec Hload Hsim) as (e & w'' & E & _);
      [now right | rewrite E in Hrun; discriminate Hrun].
Qed.

(** The whole of a handling that succeeds: the delay, the record logged,
    and the response, the transform's record with [battery] and
    [linkquality] set to two values [get_next_random] has just returned. *)
Lemma on_message_responds `{Rounding} `{JsonLib} (self : MQTTActuator.t)
    (message : MQTTMessage) (w : world) (text : str) (cmd : value)
    (d : dict) (c : bytes) :
  decode (payload message) = Ok text ->
  json_loads text = Ok cmd ->
  MQTTActuator.simulation self cmd = Ok (VDict d) ->
  CorrelationData message = Some c ->
  exists (ms : Z) (battery linkquality : Q) (wb wl : world) (token : bytes)
         (w' : world),
    1 <= ms <= 10 /\
    get_next_random 89 92 wb = (Ok battery, consume_random wb) /\
    get_next_random 50 255 wl = (Ok linkquality, consume_random wl) /\
    randoms wb = randoms w /\ random_pos wb = S (random_pos w) /\
    wl = consume_random wb /\
    MQTTActuator.__on_message self message w = (Ok tt, w') /\
    trace w'
    = trace w ++ [Sleep (fl (ms # 1000));
                  Log INFO (LogReceivedMessage
                              (MQTTClient.name (MQTTActuator.client self))
                              cmd);
                  Publish (MQTTClient.topic (MQTTActuator.client self)) 2
                    (json_dumps
                       (VDict (dict_set "linkquality" (VFloat linkquality)
                                 (dict_set "battery" (VFloat battery) d))))
                    token false].
Proof.
  intros Hdec Hload Hsim Hcd.
  destruct (on_message_run self message w _ _ _ _ Hdec Hload Hsim Hcd)
    as (ms & battery & linkquality & wb & wl & w1 & Hms & Hb & Hl & Hrs
        & Hrp & Hwl & Htr & _ & _ & E).
  destruct (publish_total (MQTTActuator.client self)
              (json_dumps
                 (VDict (dict_set "linkquality" (VFloat linkquality)
                           (dict_set "battery" (VFloat battery) d))))
              (Some c) w1) as (token & w' & Hpub & Htr').
  exists ms, battery, linkquality, wb, wl, token, w'.
  repeat (split; [assumption |]).
  split; [now rewrite E |].
  rewrite Htr', Htr, <- app_assoc. reflexivity.
Qed.

(** ** The five transforms *)

(** Every transform reads the field it echoes; a thermostat and a shutter
    then read their setpoint when the echoed value is true. *)
Lemma transform_run (k : actuator) (cmd : value) :
  transform k cmd
  = (a <-- getitem cmd (echoed k) ;;
     match setpoint k with
     | None => Ok (VDict [(echoed k, a)])
     | Some f =>
         if truthy a
         then v <-- getitem cmd f ;; Ok (VDict [(echoed k, a); (f, v)])
         else Ok (VDict [(echoed k, a); (f, VInt 0)])
     end).
Proof.
  destruct k; cbn [transform echoed setpoint];
    [unfold DoorActuator.__simulation | unfold Thermostat.__simulation
    | unfold FireAlarm.__simulation | unfold Shutter.__simulation
    | unfold LedBulb.__simulation];
    (destruct (getitem cmd _) as [a | e]; [| reflexivity]);
    cbn; try reflexivity;
    (destruct (truthy a); [| reflexivity]);
    (destruct (getitem cmd _) as [v | e]; reflexivity).
Qed.

Lemma transform_keys (k : actuator) (cmd : value) (out : value) :
  transform k cmd = Ok out ->
  exists d : dict, out = VDict d /\ keys d = transform_fields k.
Proof.
  rewrite transform_run. unfold transform_fields.
  destruct (getitem cmd (echoed k)) as [a | e]; cbn; [| discriminate].
  destruct (setpoint k) as [f |].
  - destruct (truthy a).
    + destruct (getitem cmd f) as [v | e]; cbn; [| discriminate].
      intros [= <-]. eauto.
    + intros [= <-]. eauto.
  - intros [= <-]. eauto.
Qed.

Lemma transform_missing (k : actuator) (d : dict) :
  dict_get (echoed k) d = None ->
  transform k (VDict d) = Raise (KeyError (echoed k)).
Proof.
  intros Hnone. rewrite transform_run. cbn [getitem]. now rewrite Hnone.
Qed.

(** A thermostat or a shutter, with setpoint field [f], on a command whose
    [active] is [a]: the record holds [a] as it came and, under [f], the
    command's value when [a] is true, [0] otherwise. *)
Lemma transform_setpoint (k : actuator) (f : str) (cmd a expected : value) :
  setpoint k = Some f ->
  getitem cmd "active" = Ok a ->
  (if truthy a then getitem cmd f = Ok expected else expected = VInt 0) ->
  transform k cmd = Ok (VDict [("active"%string, a); (f, expected)]).
Proof.
  intros Hf Ha Hexp. rewrite transform_run, Hf.
  assert (He : echoed k = "active"%string)
    by (destruct k; first [discriminate Hf | reflexivity]).
  rewrite He, Ha. cbn [rbind].
  destruct (truthy a); [now rewrite Hexp | now subst expected].
Qed.

(** The transform raises in the handler of an actuator of the roster: the
    trace gains the delay and the record logged, no message. *)
Lemma on_message_transform_raises `{Rounding} `{JsonLib} (k : actuator)
    (actuator_name : str) (message : MQTTMessage) (w : world) (text : str)
    (cmd : value) (e : exn) :
  decode (payload message) = Ok text ->
  json_loads text = Ok cmd ->
  transform k cmd = Raise e ->
  exists (ms : Z) (w' : world),
    1 <= ms <= 10 /\
    MQTTActuator.__on_message (new_actuator k actuator_name) message w
    = (Raise e, w') /\
    trace w'
    = trace w ++ [Sleep (fl (ms # 1000));
                  Log INFO (LogReceivedMessage actuator_name cmd)] /\
    published (trace w') = published (trace w).
Proof.
  intros Hdec Hload Hsim.
  exists (1 + Z.of_N (randoms w (random_pos w)) mod (10 - 1 + 1)).
  eexists. split; [apply delay_range |]. split.
  - exact (on_message_simulation_error (new_actuator k actuator_name)
             message w text cmd e Hdec Hload Hsim).
  - cbn [trace record consume_random]. rewrite <- app_assoc.
    split; [reflexivity |].
    rewrite published_app. cbn. now rewrite app_nil_r.
Qed.

(** The response of a thermostat or a shutter. *)
Lemma setpoint_response `{Rounding} `{JsonLib} (k : actuator) (f : str)
    (actuator_name : str) (message : MQTTMessage) (w : world) (text : str)
    (cmd : value) (c : bytes) (a expected : value) :
  setpoint k = Some f ->
  decode (payload message) = Ok text ->
  json_loads text = Ok cmd ->
  CorrelationData message = Some c ->
  getitem cmd "active" = Ok a ->
  (if truthy a then getitem cmd f = Ok expected else expected = VInt 0) ->
  exists (ms : Z) (out : dict) (token : bytes) (w' : world),
    1 <= ms <= 10 /\
    MQTTActuator.__on_message (new_actuator k actuator_name) message w
    = (Ok tt, w') /\
    trace w'
    = trace w ++ [Sleep (fl (ms # 1000));
                  Log INFO (LogReceivedMessage actuator_name cmd);
                  Publish (MQTTClient.topic
                             (MQTTClient.__init__ actuator_name)) 2
                    (json_dumps (VDict out)) token false] /\
    dict_get "active" out = Some a /\
    dict_get f out = Some expected.
Proof.
  intros Hf Hdec Hload Hcd Ha Hexp.
  pose proof (transform_setpoint k f cmd a expected Hf Ha Hexp) as Hsim.
  destruct (on_message_responds (new_actuator k actuator_name) message w
              text cmd _ c Hdec Hload Hsim Hcd)
    as (ms & battery & linkquality & wb & wl & token & w' & Hms & _ & _
        & _ & _ & _ & Hrun & Htr).
  eexists ms, _, token, w'.
  split; [exact Hms |]. split; [exact Hrun |]. split; [exact Htr |].
  rewrite !dict_get_set_ne by discriminate.
  split; [reflexivity |].
  rewrite !dict_get_set_ne
    by (destruct k; first [discriminate Hf | injection Hf as <-; discriminate]).
  destruct k; first [discriminate Hf | injection Hf as <-; reflexivity].
Qed.

(** ** Thermostat and shutter: the inactive command *)

(** C4.  A thermostat (setpoint field [state]) or a shutter (setpoint
    field [percentage]) answers a command whose [active] is [false] with
    the setpoint [0], whatever the command holds under that field or
    whether it holds it at all; when [active] is [true] the response
    carries the setpoint of the command. *)
Theorem inactive_setpoint_is_zero `{Rounding} `{JsonLib} (k : actuator)
    (f : str) (actuator_name : str) (message : MQTTMessage) (w : world)
    (text : str) (cmd : value) (c : bytes) :
  setpoint k = Some f ->
  decode (payload message) = Ok text ->
  json_loads text = Ok cmd ->
  CorrelationData message = Some c ->
  (getitem cmd "active" = Ok (VBool false) ->
   exists (ms : Z) (out : dict) (token : bytes) (w' : world),
     MQTTActuator.__on_message (new_actuator k actuator_name) message w
     = (Ok tt, w') /\
     trace w'
     = trace w ++ [Sleep (fl (ms # 1000));
                   Log INFO (LogReceivedMessage actuator_name cmd);
                   Publish (MQTTClient.topic
                              (MQTTClient.__init__ actuator_name)) 2
                     (json_dumps (VDict out)) token false] /\
     dict_get "active" out = Some (VBool false) /\
     dict_get f out = Some (VInt 0)) /\
  (forall requested : value,
     getitem cmd "active" = Ok (VBool true) ->
     getitem cmd f = Ok requested ->
     exists (ms : Z) (out : dict) (token : bytes) (w' : world),
       MQTTActuator.__on_message (new_actuator k actuator_name) message w
       = (Ok tt, w') /\
       trace w'
       = trace w ++ [Sleep (fl (ms # 1000));
                     Log INFO (LogReceivedMessage actuator_name cmd);
                     Publish (MQTTClient.topic
                                (MQTTClient.__init__ actuator_name)) 2
                       (json_dumps (VDict out)) token false] /\
       dict_get "active" out = Some (VBool true) /\
       dict_get f out = Some requested).
Proof.
  intros Hf Hdec Hload Hcd. split.
  - intros Ha.
    destruct (setpoint_response k f actuator_name message w text cmd c
                (VBool false) (VInt 0) Hf Hdec Hload Hcd Ha eq_refl)
      as (ms & out & token & w' & _ & Hrun & Htr & Hact & Hset).
    now exists ms, out, token, w'.
  - intros requested Ha Hreq.
    destruct (setpoint_response k f actuator_name message w text cmd c
                (VBool true) requested Hf Hdec Hload Hcd Ha Hreq)
      as (ms & out & token & w' & _ & Hrun & Htr & Hact & Hset).
    now exists ms, out, token, w'.
Qed.

(** The thermostat of the kitchen receives
    [{"active": false, "state": 5}]. *)
Lemma inactive_setpoint_is_zero_witness :
  exists (ms : Z) (out : dict) (token : bytes) (w' : world),
    MQTTActuator.__on_message (H := exact_rounding)
      (H0 := JsonRef.lib (H := exact_rounding)) Demo.thermostat
      {| payload := Demo.inactive_5;
         CorrelationData := Some "abc"%string |} Demo.w0 = (Ok tt, w') /\
    trace w'
    = trace Demo.w0
        ++ [Sleep (ms # 1000);
            Log INFO (LogReceivedMessage "kitchen1-actuator-thermostat"
                        (VDict [("active"%string, VBool false);
                                ("state"%string, VInt 5)]));
            Publish "mind2/kitchen1-actuator-thermostat" 2
              (json_dumps (VDict out)) token false] /\
    dict_get "active" out = Some (VBool false) /\
    dict_get "state" out = Some (VInt 0).
Proof.
  apply (proj1 (inactive_setpoint_is_zero (H := exact_rounding)
                  (H0 := JsonRef.lib (H := exact_rounding)) ThermostatA
                  "state" "kitchen1-actuator-thermostat"
                  {| payload := Demo.inactive_5;
                     CorrelationData := Some "abc"%string |} Demo.w0
                  Demo.inactive_5
                  (VDict [("active"%string, VBool false);
                          ("state"%string, VInt 5)])
                  "abc" eq_refl eq_refl eq_refl eq_refl)).
  reflexivity.
Defined.

(** ** Thermostat and shutter: truthiness of [active] *)

(** C10.  A thermostat or a shutter puts the [active] value of the command
    into the response as it came, whatever its type, and decides by its
    truth value: when it is true (as [1] or a non-empty string are) the
    response carries the setpoint of the command, otherwise (as for [0],
    the empty string or [null]) the setpoint [0]. *)
Theorem active_truthiness `{Rounding} `{JsonLib} (k : actuator) (f : str)
    (actuator_name : str) (message : MQTTMessage) (w : world) (text : str)
    (cmd : value) (c : bytes) (a expected : value) :
  setpoint k = Some f ->
  decode (payload message) = Ok text ->
  json_loads text = Ok cmd ->
  CorrelationData message = Some c ->
  getitem cmd "active" = Ok a ->
  (if truthy a then getitem cmd f = Ok expected else expected = VInt 0) ->
  (exists (ms : Z) (out : dict) (token : bytes) (w' : world),
     MQTTActuator.__on_message (new_actuator k actuator_name) message w
     = (Ok tt, w') /\
     trace w'
     = trace w ++ [Sleep (fl (ms # 1000));
                   Log INFO (LogReceivedMessage actuator_name cmd);
                   Publish (MQTTClient.topic
                              (MQTTClient.__init__ actuator_name)) 2
                     (json_dumps (VDict out)) token false] /\
     dict_get "active" out = Some a /\
     dict_get f out = Some expected) /\
  truthy (VInt 1) = true /\ truthy (VStr "on") = true /\
  truthy (VInt 0) = false /\ truthy (VStr "") = false /\
  truthy VNone = false.
Proof.
  intros Hf Hdec Hload Hcd Ha Hexp.
  split; [| repeat split].
  destruct (setpoint_response k f actuator_name message w text cmd c
              a expected Hf Hdec Hload Hcd Ha Hexp)
    as (ms & out & token & w' & _ & Hrun & Htr & Hact & Hset).
  now exists ms, out, token, w'.
Qed.

(** The shutter of the garage receives
    [{"active": 1, "percentage": 40}]: [1] is echoed and counts as
    true. *)
Lemma active_truthiness_witness :
  exists (ms : Z) (out : dict) (token : bytes) (w' : world),
    MQTTActuator.__on_message (H := exact_rounding)
      (H0 := JsonRef.lib (H := exact_rounding)) Demo.shutter
      {| payload := Demo.active_1; CorrelationData := Some "abc"%string |}
      Demo.w0 = (Ok tt, w') /\
    trace w'
    = trace Demo.w0
        ++ [Sleep (ms # 1000);
            Log INFO (LogReceivedMessage "garage-actuator-shutter"
                        (VDict [("active"%string, VInt 1);
                                ("percentage"%string, VInt 40)]));
            Publish "mind2/garage-actuator-shutter" 2
              (json_dumps (VDict out)) token false] /\
    dict_get "active" out = Some (VInt 1) /\
    dict_get "percentage" out = Some (VInt 40).
Proof.
  apply (proj1 (active_truthiness (H := exact_rounding)
                  (H0 := JsonRef.lib (H := exact_rounding)) ShutterA
                  "percentage" "garage-actuator-shutter"
                  {| payload := Demo.active_1;
                     CorrelationData := Some "abc"%string |} Demo.w0
                  Demo.active_1
                  (VDict [("active"%string, VInt 1);
                          ("percentage"%string, VInt 40)])
                  "abc" (VInt 1) (VInt 40)
                  eq_refl eq_refl eq_refl eq_refl eq_refl eq_refl)).
Defined.

(** ** A command without the field the transform reads *)

(** C5, as amended.  When the payload parses to a record that lacks the
    field the transform echoes ([open], [active], [alert], [on]), the
    transform raises [KeyError] for that field out of the handler: the
    command is logged and nothing is published.  The same holds for a
    thermostat or a shutter whose command has a true [active] and lacks
    the setpoint.  No default stands in for a missing field; only with
    [active] not true is the setpoint not read, and the response then
    carries [0]. *)
Theorem missing_field_raises `{Rounding} `{JsonLib} (k : actuator)
    (actuator_name : str) (message : MQTTMessage) (w : world) (text : str)
    (d : dict) :
  decode (payload message) = Ok text ->
  json_loads text = Ok (VDict d) ->
  (dict_get (echoed k) d = None ->
   exists (ms : Z) (w' : world),
     MQTTActuator.__on_message (new_actuator k actuator_name) message w
     = (Raise (KeyError (echoed k)), w') /\
     trace w'
     = trace w ++ [Sleep (fl (ms # 1000));
                   Log INFO (LogReceivedMessage actuator_name (VDict d))] /\
     published (trace w') = published (trace w)) /\
  (forall (f : str) (a : value),
     setpoint k = Some f ->
     dict_get "active" d = Some a ->
     dict_get f d = None ->
     if truthy a
     then
       exists (ms : Z) (w' : world),
         MQTTActuator.__on_message (new_actuator k actuator_name) message w
         = (Raise (KeyError f), w') /\
         trace w'
         = trace w ++ [Sleep (fl (ms # 1000));
                       Log INFO (LogReceivedMessage actuator_name (VDict d))] /\
         published (trace w') = published (trace w)
     else
       forall c : bytes,
         CorrelationData message = Some c ->
         exists (ms : Z) (out : dict) (token : bytes) (w' : world),
           MQTTActuator.__on_message (new_actuator k actuator_name) message w
           = (Ok tt, w') /\
           trace w'
           = trace w ++ [Sleep (fl (ms # 1000));
                         Log INFO (LogReceivedMessage actuator_name (VDict d));
                         Publish (MQTTClient.topic
                                    (MQTTClient.__init__ actuator_name)) 2
                           (json_dumps (VDict out)) token false] /\
           dict_get "active" out = Some a /\
           dict_get f out = Some (VInt 0)).
Proof.
  intros Hdec Hload. split.
  - intros Hnone.
    destruct (on_message_transform_raises k actuator_name message w text
                (VDict d) _ Hdec Hload (transform_missing k d Hnone))
      as (ms & w' & _ & Hrun & Htr & Hpub).
    now exists ms, w'.
  - intros f a Hf Ha Hnone.
    assert (Hget : getitem (VDict d) "active" = Ok a)
      by (cbn [getitem]; now rewrite Ha).
    destruct (truthy a) eqn:Ht.
    + assert (Hsim : transform k (VDict d) = Raise (KeyError f)).
      { rewrite transform_run, Hf.
        assert (He : echoed k = "active"%string)
          by (destruct k; first [discriminate Hf | reflexivity]).
        rewrite He, Hget. cbn [rbind getitem]. now rewrite Ht, Hnone. }
      destruct (on_message_transform_raises k actuator_name message w text
                  (VDict d) _ Hdec Hload Hsim)
        as (ms & w' & _ & Hrun & Htr & Hpub).
      now exists ms, w'.
    + intros c Hcd.
      destruct (setpoint_response k f actuator_name message w text (VDict d)
                  c a (VInt 0) Hf Hdec Hload Hcd Hget)
        as (ms & out & token & w' & _ & Hrun & Htr & Hact & Hset);
        [now rewrite Ht |].
      now exists ms, out, token, w'.
Qed.

(** The door of the living room receives [{}]. *)
Lemma missing_field_raises_witness :
  exists (ms : Z) (w' : world),
    MQTTActuator.__on_message (H := exact_rounding)
      (H0 := JsonRef.lib (H := exact_rounding)) Demo.door
      {| payload := "{}"; CorrelationData := Some "abc"%string |} Demo.w0
    = (Raise (KeyError "open"), w') /\
    trace w'
    = trace Demo.w0
        ++ [Sleep (ms # 1000);
            Log INFO (LogReceivedMessage "livingroom-actuator-door"
                        (VDict []))] /\
    published (trace w') = published (trace Demo.w0).
Proof.
  apply (proj1 (missing_field_raises (H := exact_rounding)
                  (H0 := JsonRef.lib (H := exact_rounding)) DoorA
                  "livingroom-actuator-door"
                  {| payload := "{}"; CorrelationData := Some "abc"%string |}
                  Demo.w0 "{}" [] eq_refl eq_refl)).
  reflexivity.
Defined.

(** C5 as stated fails on the command [{}] sent to a door: no default
    stands in for the missing [open], the handler raises [KeyError] and no
    response is published. *)
Lemma on_message_empty_record :
  exists w' : world,
    MQTTActuator.__on_message (H := exact_rounding)
      (H0 := JsonRef.lib (H := exact_rounding)) Demo.door
      {| payload := "{}"; CorrelationData := Some "abc"%string |} Demo.w0
    = (Raise (KeyError "open"), w') /\
    published (trace w') = [].
Proof.
  eexists. split; vm_compute; reflexivity.
Qed.

(** ** The correlation data of every message published *)

(** C6.  Every call of [MQTTClient.publish] returns after one call of the
    client's [publish]: on the topic of the agent, with QoS 2, the payload
    given and [retain] false, and with correlation data that is never
    empty.  The correlation data is the one the caller gave when that is
    not empty; with none, or an empty one, it is the text of the UUID that
    [uuid.uuid1] returns for this call, and the next call gets the next
    UUID.  Two UUIDs that differ in their 128 bits have different texts.
    The topic of an agent is [mind2/] followed by its name. *)
Theorem publish_correlation_data (self : MQTTClient.t) (p : json_text)
    (correlation_data : option bytes) (w : world) :
  (exists (token : bytes) (w' : world),
     MQTTClient.publish self p correlation_data w = (Ok tt, w') /\
     trace w' = trace w ++ [Publish (MQTTClient.topic self) 2 p token false] /\
     token <> ""%string /\
     (MQTTClient.not_ correlation_data = false ->
      correlation_data = Some token /\ uuid_pos w' = uuid_pos w) /\
     (MQTTClient.not_ correlation_data = true ->
      token = Uuid.to_str (uuids w (uuid_pos w)) /\
      uuid_pos w' = S (uuid_pos w))) /\
  (forall u1 u2 : Uuid.uuid,
     Uuid.to_str u1 = Uuid.to_str u2 ->
     (u1 mod 2 ^ 128 = u2 mod 2 ^ 128)%N) /\
  (forall name : str,
     MQTTClient.topic (MQTTClient.__init__ name)
     = ("mind2/" ++ name)%string).
Proof.
  split; [| split; [exact UuidFacts.to_str_inj | reflexivity]].
  destruct (MQTTClient.not_ correlation_data) eqn:Hn.
  - rewrite publish_fresh by assumption.
    eexists _, _. split; [reflexivity |]. split; [reflexivity |].
    split; [apply UuidFacts.to_str_nonempty |].
    split; [discriminate | now intros _].
  - destruct correlation_data as [c |]; [| discriminate Hn].
    assert (Hc : c <> ""%string) by (now apply String.eqb_neq).
    rewrite publish_given by assumption.
    eexists _, _. split; [reflexivity |]. split; [reflexivity |].
    split; [exact Hc |]. split; [now intros _ | discriminate].
Qed.

(** ** The fields of a response *)

Lemma dict_get_not_in (key : str) (d : dict) :
  key ∉ keys d -> dict_get key d = None.
Proof.
  induction d as [| [k v] d IH]; [reflexivity |].
  cbn. intros Hnot. destruct (String.eqb key k) eqn:E.
  - apply String.eqb_eq in E. subst k. destruct Hnot. apply list_elem_of_here.
  - apply IH. intros Hin. apply Hnot. now apply list_elem_of_further.
Qed.

Lemma transform_fields_other (k : actuator) :
  ("battery"%string ∉ transform_fields k) /\
  ("linkquality"%string ∉ transform_fields k).
Proof.
  split; intros Hin; apply list_elem_of_In in Hin;
    destruct k; cbn in Hin; (intuition discriminate).
Qed.

(** [get_next_random] returns what [drawn] makes of the next outcome. *)
Lemma get_next_random_drawn `{Rounding} (lower upper : Z) (w : world) :
  get_next_random lower upper w
  = (Ok (drawn lower upper (randoms w (random_pos w))), consume_random w).
Proof. reflexivity. Qed.

Lemma unit_of_range (outcome : N) :
  (0 <= unit_of outcome)%Q /\ (unit_of outcome < 1)%Q.
Proof. exact (random_unit outcome). Qed.

Section Drawn.
Context `{RL : RoundingLaws}.

Lemma round_ge (x : Q) (a : Z) :
  Z.abs a <= 2 ^ 53 -> (inject_Z a <= x)%Q -> (inject_Z a <= round x 2)%Q.
Proof.
  intros Ha Hax. unfold round.
  change (inject_Z (10 ^ Z.of_nat 2)) with (inject_Z 100).
  rewrite <- (fl_int a Ha). apply fl_mono.
  assert (100 * a <= round_half_even (x * inject_Z 100)).
  { apply round_half_even_ge. rewrite inject_Z_mult.
    change (inject_Z 100) with (100 # 1)%Q. lra. }
  apply Qle_shift_div_l; [reflexivity |].
  rewrite <- inject_Z_mult. rewrite <- Zle_Qle. lia.
Qed.

Lemma round_le (x : Q) (b : Z) :
  Z.abs b <= 2 ^ 53 -> (x <= inject_Z b)%Q -> (round x 2 <= inject_Z b)%Q.
Proof.
  intros Hb Hxb. unfold round.
  change (inject_Z (10 ^ Z.of_nat 2)) with (inject_Z 100).
  rewrite <- (fl_int b Hb). apply fl_mono.
  assert (round_half_even (x * inject_Z 100) <= 100 * b).
  { apply round_half_even_le. rewrite inject_Z_mult.
    change (inject_Z 100) with (100 # 1)%Q. lra. }
  apply Qle_shift_div_r; [reflexivity |].
  rewrite <- inject_Z_mult. rewrite <- Zle_Qle. lia.
Qed.

(** The value drawn follows the outcome: it lies between the integers
    that enclose [lower + (upper - lower) * random()]. *)
Lemma drawn_tracks (lower upper : Z) (outcome : N) (m : Z) :
  lower <= upper -> Z.abs lower <= 2 ^ 52 -> Z.abs upper <= 2 ^ 52 ->
  0 <= m <= upper - lower ->
  ((inject_Z m <= inject_Z (upper - lower) * unit_of outcome)%Q ->
   (inject_Z (lower + m) <= drawn lower upper outcome)%Q) /\
  ((inject_Z (upper - lower) * unit_of outcome <= inject_Z m)%Q ->
   (drawn lower upper outcome <= inject_Z (lower + m))%Q).
Proof.
  intros Hle Hl Hu Hm.
  assert (Hw : Z.abs (upper - lower) <= 2 ^ 53) by lia.
  assert (Hl' : Z.abs lower <= 2 ^ 53) by lia.
  assert (Hm' : Z.abs m <= 2 ^ 53) by lia.
  assert (Hlm : Z.abs (lower + m) <= 2 ^ 53) by lia.
  unfold drawn. set (r := unit_of outcome).
  split; intros Hr.
  - apply round_ge; [exact Hlm |].
    rewrite <- (fl_int (lower + m) Hlm). apply fl_mono.
    rewrite (fl_int lower Hl'), inject_Z_plus.
    apply Qplus_le_r.
    rewrite <- (fl_int m Hm'). apply fl_mono.
    now rewrite (fl_int (upper - lower) Hw).
  - apply round_le; [exact Hlm |].
    rewrite <- (fl_int (lower + m) Hlm). apply fl_mono.
    rewrite (fl_int lower Hl'), inject_Z_plus.
    apply Qplus_le_r.
    rewrite <- (fl_int m Hm'). apply fl_mono.
    now rewrite (fl_int (upper - lower) Hw).
Qed.

End Drawn.

(** A handling that returns has taken three outcomes of [random]: one for
    the delay, one for [battery], one for [linkquality]. *)
Lemma on_message_consumes `{Rounding} `{JsonLib} (self : MQTTActuator.t)
    (message : MQTTMessage) (w w' : world) :
  MQTTActuator.__on_message self message w = (Ok tt, w') ->
  randoms w' = randoms w /\ random_pos w' = (3 + random_pos w)%nat.
Proof.
  intros Hrun.
  destruct (on_message_inv self message w w' Hrun)
    as (text & cmd & d & c & Hdec & Hload & Hsim & Hcd).
  revert Hrun. unfold MQTTActuator.__on_message.
  rewrite (bind_ok _ _ _ _ _ (randint_run 1 10 w ltac:(lia))).
  unfold sleep, MQTTActuator.get_CorrelationData.
  rewrite Hdec, Hcd.
  set (ms := 1 + Z.of_N (randoms w (random_pos w)) mod (10 - 1 + 1)).
  set (w2 := record (Sleep (fl (ms # 1000))) (consume_random w)).
  set (w3 := record (Log INFO (LogReceivedMessage
                                 (MQTTClient.name (MQTTActuator.client self))
                                 cmd)) w2).
  destruct (get_next_random_total 89 92 w3) as [battery Hb].
  destruct (get_next_random_total 50 255 (consume_random w3))
    as [linkquality Hl].
  unfold bind at 1. cbn [emit]. fold w2.
  unfold bind at 1. unfold lift at 1.
  unfold bind at 1. unfold lift at 1. rewrite Hload.
  unfold bind at 1. cbn [emit]. fold w3.
  unfold bind at 1. unfold lift at 1. rewrite Hsim.
  rewrite (bind_ok _ _ _ _ _ Hb).
  unfold bind at 1. unfold lift at 1. cbn [setitem].
  rewrite (bind_ok _ _ _ _ _ Hl).
  unfold bind at 1. unfold lift at 1. cbn [setitem].
  unfold bind at 1. unfold lift at 1.
  destruct (String.eqb_spec c "") as [-> | Hne].
  - rewrite publish_fresh by reflexivity. intros [= <-]. split; reflexivity.
  - rewrite publish_given by assumption. intros [= <-]. split; reflexivity.
Qed.

(** C9.  Whenever [MQTTActuator.__on_message] returns, the record of the
    response is the record [d] the transform made of the parsed command,
    with [battery] and [linkquality] set afterwards: its keys are those of
    [d] and these two, every other field is as in [d], and the two hold the
    values [get_next_random(89, 92)] and [get_next_random(50, 255)]
    returned in this call, in [89, 92] and [50, 255], with two decimals,
    whatever [d] held under these names.  The two values are drawn anew
    for this response: [battery] is what [get_next_random] makes of the
    second outcome of [random] the call takes and [linkquality] of the
    third, each following its outcome from the lower end of its range (for
    the outcome 0) to the upper end, and the call leaves the generator
    three outcomes further, so the next response is made of other
    outcomes.  For the five transforms the keys are exactly the
    transform's fields followed by [battery] and [linkquality], so no
    other field of the command appears. *)
Theorem response_fields `{RL : RoundingLaws} `{JsonLib}
    (self : MQTTActuator.t) (message : MQTTMessage) (w w' : world) :
  MQTTActuator.__on_message self message w = (Ok tt, w') ->
  exists (text : str) (cmd : value) (d out : dict) (ms : Z)
         (battery linkquality : Q) (wb : world) (token : bytes),
    decode (payload message) = Ok text /\
    json_loads text = Ok cmd /\
    MQTTActuator.simulation self cmd = Ok (VDict d) /\
    trace w'
    = trace w ++ [Sleep (fl (ms # 1000));
                  Log INFO (LogReceivedMessage
                              (MQTTClient.name (MQTTActuator.client self))
                              cmd);
                  Publish (MQTTClient.topic (MQTTActuator.client self)) 2
                    (json_dumps (VDict out)) token false] /\
    (forall key : str,
       key ∈ keys out <->
       key ∈ keys d \/ key = "battery"%string \/ key = "linkquality"%string) /\
    (forall key : str,
       key <> "battery"%string -> key <> "linkquality"%string ->
       dict_get key out = dict_get key d) /\
    randoms wb = randoms w /\ random_pos wb = S (random_pos w) /\
    get_next_random 89 92 wb = (Ok battery, consume_random wb) /\
    get_next_random 50 255 (consume_random wb)
    = (Ok linkquality, consume_random (consume_random wb)) /\
    dict_get "battery" out = Some (VFloat battery) /\
    (89 <= battery)%Q /\ (battery <= 92)%Q /\ two_decimals battery /\
    dict_get "linkquality" out = Some (VFloat linkquality) /\
    (50 <= linkquality)%Q /\ (linkquality <= 255)%Q /\
    two_decimals linkquality /\
    (forall k : actuator,
       MQTTActuator.simulation self = transform k ->
       keys out = transform_fields k ++ ["battery"%string;
                                         "linkquality"%string]) /\
    battery = drawn 89 92 (randoms w (S (random_pos w))) /\
    linkquality = drawn 50 255 (randoms w (S (S (random_pos w)))) /\
    (forall m : Z,
       0 <= m <= 3 ->
       ((inject_Z m
         <= inject_Z 3 * unit_of (randoms w (S (random_pos w))))%Q ->
        (inject_Z (89 + m) <= battery)%Q) /\
       ((inject_Z 3 * unit_of (randoms w (S (random_pos w)))
         <= inject_Z m)%Q ->
        (battery <= inject_Z (89 + m))%Q)) /\
    (forall m : Z,
       0 <= m <= 205 ->
       ((inject_Z m
         <= inject_Z 205 * unit_of (randoms w (S (S (random_pos w)))))%Q ->
        (inject_Z (50 + m) <= linkquality)%Q) /\
       ((inject_Z 205 * unit_of (randoms w (S (S (random_pos w))))
         <= inject_Z m)%Q ->
        (linkquality <= inject_Z (50 + m))%Q)) /\
    randoms w' = randoms w /\ random_pos w' = (3 + random_pos w)%nat.
Proof.
  intros Hrun.
  destruct (on_message_consumes self message w w' Hrun) as [Hrs' Hrp'].
  destruct (on_message_inv self message w w' Hrun)
    as (text & cmd & d & c & Hdec & Hload & Hsim & Hcd).
  destruct (on_message_responds self message w text cmd d c
              Hdec Hload Hsim Hcd)
    as (ms & battery & linkquality & wb & wl & token & w'' & _ & Hb & Hl
        & Hrs & Hrp & -> & Hrun' & Htr).
  rewrite Hrun in Hrun'. injection Hrun' as <-.
  destruct (get_next_random_spec 89 92 wb) as (b' & Hb' & Hb0 & Hb1 & Hb2);
    [lia .. |].
  rewrite Hb in Hb'. injection Hb' as <-.
  destruct (get_next_random_spec 50 255 (consume_random wb))
    as (l' & Hl' & Hl0 & Hl1 & Hl2); [lia .. |].
  rewrite Hl in Hl'. injection Hl' as <-.
  assert (Hbd : battery = drawn 89 92 (randoms w (S (random_pos w)))).
  { pose proof (get_next_random_drawn 89 92 wb) as E.
    rewrite Hb, Hrs, Hrp in E. now injection E. }
  assert (Hld : linkquality
                = drawn 50 255 (randoms w (S (S (random_pos w))))).
  { pose proof (get_next_random_drawn 50 255 (consume_random wb)) as E.
    rewrite Hl in E. cbn [randoms random_pos consume_random] in E.
    rewrite Hrs, Hrp in E. now injection E. }
  eexists text, cmd, d, _, ms, battery, linkquality, wb, token.
  split; [exact Hdec |]. split; [exact Hload |]. split; [exact Hsim |].
  split; [exact Htr |].
  split.
  { intros key. rewrite !elem_of_keys_dict_set. tauto. }
  split.
  { intros key Hb' Hl'. rewrite !dict_get_set_ne by congruence. reflexivity. }
  split; [exact Hrs |]. split; [exact Hrp |].
  split; [exact Hb |]. split; [exact Hl |].
  split.
  { rewrite dict_get_set_ne by discriminate. apply dict_get_set_eq. }
  split; [exact Hb0 |]. split; [exact Hb1 |]. split; [exact Hb2 |].
  split; [apply dict_get_set_eq |].
  split; [exact Hl0 |]. split; [exact Hl1 |]. split; [exact Hl2 |].
  split.
  { intros k Hk. rewrite Hk in Hsim.
    destruct (transform_keys k cmd _ Hsim) as (d' & [= <-] & Hkeys).
    destruct (transform_fields_other k) as [Hnb Hnl].
    rewrite <- Hkeys in Hnb, Hnl |- *.
    rewrite !keys_dict_set, dict_get_set_ne by discriminate.
    rewrite (dict_get_not_in _ _ Hnb), (dict_get_not_in _ _ Hnl).
    now rewrite <- app_assoc. }
  split; [exact Hbd |]. split; [exact Hld |].
  split.
  { intros m Hm. rewrite Hbd.
    exact (drawn_tracks 89 92 _ m ltac:(lia) ltac:(lia) ltac:(lia)
             ltac:(lia)). }
  split.
  { intros m Hm. rewrite Hld.
    exact (drawn_tracks 50 255 _ m ltac:(lia) ltac:(lia) ltac:(lia)
             ltac:(lia)). }
  split; [exact Hrs' | exact Hrp'].
Qed.

(** The door of the living room answers the command
    [Demo.red_command] twice, in a world where the outcomes of [random]
    are spread over its range.  The first response published holds
    [open], [battery] = 89.83 and [linkquality] = 163.80, made of the
    second and third outcomes, and no [color]; the second response holds
    [battery] = 89.33 and [linkquality] = 129.49, made of the fifth and
    sixth outcomes. *)
Lemma response_fields_witness :
  exists (out out' : dict) (ms ms' : Z)
         (battery linkquality battery' linkquality' : Q),
    trace Demo.handled
    = trace Demo.w1
        ++ [Sleep (ms # 1000);
            Log INFO (LogReceivedMessage "livingroom-actuator-door"
                        (VDict [("open"%string, VBool true);
                                ("color"%string, VStr "red")]));
            Publish "mind2/livingroom-actuator-door" 2
              (json_dumps (VDict out)) "abc" false] /\
    keys out = ["open"%string; "battery"%string; "linkquality"%string] /\
    dict_get "color" out = None /\
    dict_get "open" out = Some (VBool true) /\
    dict_get "battery" out = Some (VFloat battery) /\
    battery = drawn (H := exact_rounding) 89 92 (randoms Demo.w1 1) /\
    (battery == 8983 # 100)%Q /\
    dict_get "linkquality" out = Some (VFloat linkquality) /\
    linkquality = drawn (H := exact_rounding) 50 255 (randoms Demo.w1 2) /\
    (linkquality == 16380 # 100)%Q /\
    random_pos Demo.handled = 3%nat /\
    trace Demo.handled_twice
    = trace Demo.handled
        ++ [Sleep (ms' # 1000);
            Log INFO (LogReceivedMessage "livingroom-actuator-door"
                        (VDict [("open"%string, VBool true);
                                ("color"%string, VStr "red")]));
            Publish "mind2/livingroom-actuator-door" 2
              (json_dumps (VDict out')) "abc" false] /\
    keys out' = ["open"%string; "battery"%string; "linkquality"%string] /\
    dict_get "battery" out' = Some (VFloat battery') /\
    battery' = drawn (H := exact_rounding) 89 92 (randoms Demo.w1 4) /\
    (battery' == 8933 # 100)%Q /\
    dict_get "linkquality" out' = Some (VFloat linkquality') /\
    linkquality' = drawn (H := exact_rounding) 50 255 (randoms Demo.w1 5) /\
    (linkquality' == 12949 # 100)%Q /\
    random_pos Demo.handled_twice = 6%nat.
Proof.
  destruct (response_fields (RL := exact_rounding_laws)
              (H := JsonRef.lib (H := exact_rounding)) Demo.door
              Demo.red_command Demo.w1 Demo.handled)
    as (text & cmd & d & out & ms & battery & linkquality & wb & token
        & Hdec & Hload & Hsim & Htr & _ & Hother & _ & _ & _ & _ & Hb & _
        & _ & _ & Hl & _ & _ & _ & Hkeys & Hbd & Hld & _ & _ & _ & Hpos).
  { vm_compute. reflexivity. }
  destruct (response_fields (RL := exact_rounding_laws)
              (H := JsonRef.lib (H := exact_rounding)) Demo.door
              Demo.red_command Demo.handled Demo.handled_twice)
    as (text' & cmd' & d' & out' & ms' & battery' & linkquality' & wb'
        & token' & Hdec' & Hload' & Hsim' & Htr' & _ & _ & _ & _ & _ & _
        & Hb' & _ & _ & _ & Hl' & _ & _ & _ & Hkeys' & Hbd' & Hld' & _ & _
        & _ & Hpos').
  { vm_compute. reflexivity. }
  injection Hdec as <-. injection Hload as <-. injection Hsim as <-.
  injection Hdec' as <-. injection Hload' as <-. injection Hsim' as <-.
  assert (Htoken : token = "abc"%string).
  { apply (f_equal published) in Htr. vm_compute in Htr.
    now injection Htr. }
  assert (Htoken' : token' = "abc"%string).
  { apply (f_equal published) in Htr'. vm_compute in Htr'.
    now injection Htr'. }
  subst token token'.
  exists out, out', ms, ms', battery, linkquality, battery', linkquality'.
  split; [exact Htr |].
  split; [exact (Hkeys DoorA eq_refl) |].
  split; [rewrite Hother by discriminate; reflexivity |].
  split; [rewrite Hother by discriminate; reflexivity |].
  split; [exact Hb |]. split; [exact Hbd |].
  split; [rewrite Hbd; vm_compute; reflexivity |].
  split; [exact Hl |]. split; [exact Hld |].
  split; [rewrite Hld; vm_compute; reflexivity |].
  split; [exact Hpos |].
  split; [exact Htr' |].
  split; [exact (Hkeys' DoorA eq_refl) |].
  split; [exact Hb' |].
  split; [rewrite Hbd'; vm_compute; reflexivity |].
  split; [rewrite Hbd'; vm_compute; reflexivity |].
  split; [exact Hl' |].
  split; [rewrite Hld'; vm_compute; reflexivity |].
  split; [rewrite Hld'; vm_compute; reflexivity |].
  rewrite Hpos', Hpos. reflexivity.
Defined.

(** ** A cycle of a sensor *)

Ltac run_get_next_random v Hv :=
  match goal with
  | |- context [bind (get_next_random ?a ?b) _ ?w] =>
      destruct (get_next_random_total a b w) as [v Hv];
      rewrite (bind_ok _ _ _ _ _ Hv); cbv beta
  end.

Ltac run_decision b :=
  match goal with
  | |- context [bind (randint 0 ?n) _ ?w] =>
      rewrite (bind_ok _ _ _ _ _ (randint_run 0 n w ltac:(cbn; lia)));
      cbv beta;
      match goal with
      | |- context [index ?l ?i] =>
          let Hd := fresh "Hdecision" in
          destruct (index_ok l i) as [b Hd];
          [pose proof (randint_range 0 n (randoms w (random_pos w))
                         ltac:(cbn; lia)); cbn in *; lia |];
          unfold bind at 1; unfold lift at 1; rewrite Hd
      end
  end.

Ltac run_publish_and_pause :=
  match goal with
  | |- context [bind (MQTTClient.publish ?self ?p None) _ ?w] =>
      rewrite (bind_ok _ _ _ _ _ (publish_fresh self p None w eq_refl));
      cbv beta
  end;
  match goal with
  | |- context [bind (randint ?a ?b) _ ?w] =>
      rewrite (bind_ok _ _ _ _ _ (randint_run a b w ltac:(lia))); cbv beta
  end.

(** One cycle of a sensor: a reading is published on the sensor's topic
    with a new UUID as correlation data, then the sensor sleeps a whole
    number of seconds drawn from [interval k]. *)
Lemma tick_run `{Rounding} (k : sensor) (self : MQTTClient.t) (w : world) :
  exists (message : dict) (seconds : Z) (w' : world),
    tick k self w = (Ok tt, w') /\
    trace w'
    = trace w ++ [Publish (MQTTClient.topic self) 2
                    (json_dumps (VDict message))
                    (Uuid.to_str (uuids w (uuid_pos w))) false;
                  Sleep (inject_Z seconds)] /\
    seconds
    = fst (interval k)
      + Z.of_N (randoms w (draws_of_reading k + random_pos w))
          mod (snd (interval k) - fst (interval k) + 1) /\
    keys message = reading_fields k /\
    (forall (field : str) (lo hi : Z),
       In (field, (lo, hi)) (declared_ranges k) ->
       exists (wf : world) (v : Q),
         get_next_random lo hi wf = (Ok v, consume_random wf) /\
         dict_get field message = Some (VFloat v)).
Proof.
  destruct k; cbn [tick interval fst snd draws_of_reading reading_fields
                   declared_ranges];
    [unfold TemperatureSensor.__simulation
    | unfold MotionSensor.__simulation | unfold WindowSensor.__simulation
    | unfold DoorSensor.__simulation | unfold SmokeDetector.__simulation];
    cbv zeta.
  - run_get_next_random temperature Ht. run_get_next_random humidity Hh.
    run_get_next_random battery Hb. run_get_next_random linkquality Hl.
    run_publish_and_pause.
    eexists _, _, _. split; [reflexivity |].
    split; [cbn; now rewrite <- app_assoc |].
    split; [reflexivity |]. split; [reflexivity |].
    intros field lo hi Hin. cbn in Hin.
    destruct Hin as [[= <- <- <-] | [[= <- <- <-] | [[= <- <- <-]
                    | [[= <- <- <-] | []]]]]; eauto.
  - run_decision alert.
    run_get_next_random battery Hb. run_get_next_random linkquality Hl.
    run_publish_and_pause.
    eexists _, _, _. split; [reflexivity |].
    split; [cbn; now rewrite <- app_assoc |].
    split; [reflexivity |]. split; [reflexivity |].
    intros field lo hi Hin. cbn in Hin.
    destruct Hin as [[= <- <- <-] | [[= <- <- <-] | []]]; eauto.
  - run_decision open.
    run_get_next_random battery Hb. run_get_next_random linkquality Hl.
    run_publish_and_pause.
    eexists _, _, _. split; [reflexivity |].
    split; [cbn; now rewrite <- app_assoc |].
    split; [reflexivity |]. split; [reflexivity |].
    intros field lo hi Hin. cbn in Hin.
    destruct Hin as [[= <- <- <-] | [[= <- <- <-] | []]]; eauto.
  - run_decision open.
    run_get_next_random battery Hb. run_get_next_random linkquality Hl.
    run_publish_and_pause.
    eexists _, _, _. split; [reflexivity |].
    split; [cbn; now rewrite <- app_assoc |].
    split; [reflexivity |]. split; [reflexivity |].
    intros field lo hi Hin. cbn in Hin.
    destruct Hin as [[= <- <- <-] | [[= <- <- <-] | []]]; eauto.
  - run_decision alert.
    run_get_next_random battery Hb. run_get_next_random linkquality Hl.
    run_publish_and_pause.
    eexists _, _, _. split; [reflexivity |].
    split; [cbn; now rewrite <- app_assoc |].
    split; [reflexivity |]. split; [reflexivity |].
    intros field lo hi Hin. cbn in Hin.
    destruct Hin as [[= <- <- <-] | [[= <- <- <-] | []]]; eauto.
Qed.

(** ** Readings *)

(** C7.  Every cycle of a sensor publishes a reading in which each numeric
    field the specification declares with a range holds a float of that
    range with two decimals: [temperature] in [18, 26] and [humidity] in
    [40, 90] for a temperature sensor, [battery] in [89, 92] and
    [linkquality] in [50, 255] for every sensor. *)
Theorem reading_in_range `{RL : RoundingLaws} (k : sensor)
    (self : MQTTClient.t) (w : world) :
  exists (message : dict) (token : bytes) (seconds : Z) (w' : world),
    tick k self w = (Ok tt, w') /\
    trace w'
    = trace w ++ [Publish (MQTTClient.topic self) 2
                    (json_dumps (VDict message)) token false;
                  Sleep (inject_Z seconds)] /\
    keys message = reading_fields k /\
    (forall (field : str) (lo hi : Z),
       In (field, (lo, hi)) (declared_ranges k) ->
       exists v : Q,
         dict_get field message = Some (VFloat v) /\
         (inject_Z lo <= v)%Q /\ (v <= inject_Z hi)%Q /\ two_decimals v).
Proof.
  destruct (tick_run k self w)
    as (message & seconds & w' & Hrun & Htr & _ & Hkeys & Hfields).
  eexists message, _, seconds, w'.
  split; [exact Hrun |]. split; [exact Htr |]. split; [exact Hkeys |].
  intros field lo hi Hin.
  destruct (Hfields field lo hi Hin) as (wf & v & Hv & Hget).
  assert (Hrange : lo <= hi /\ Z.abs lo <= 2 ^ 52 /\ Z.abs hi <= 2 ^ 52).
  { destruct k; cbn in Hin;
      repeat (destruct Hin as [[= <- <- <-] | Hin]; [lia |]);
      destruct Hin. }
  destruct Hrange as (Hle & Hlo & Hhi).
  destruct (get_next_random_spec lo hi wf Hle Hlo Hhi)
    as (v' & Hv' & Hv0 & Hv1 & Hv2).
  rewrite Hv in Hv'. injection Hv' as <-.
  exists v. repeat (split; [assumption |]). assumption.
Qed.

(** A cycle of the temperature sensor of the kitchen. *)
Lemma reading_in_range_witness :
  exists (message : dict) (token : bytes) (seconds : Z) (w' : world),
    tick (H := exact_rounding) Temperature (MQTTClient.__init__ "kitchen")
      Demo.w0 = (Ok tt, w') /\
    trace w'
    = trace Demo.w0
        ++ [Publish "mind2/kitchen" 2 (json_dumps (VDict message)) token false;
            Sleep (inject_Z seconds)] /\
    keys message = reading_fields Temperature /\
    (forall (field : str) (lo hi : Z),
       In (field, (lo, hi)) (declared_ranges Temperature) ->
       exists v : Q,
         dict_get field message = Some (VFloat v) /\
         (inject_Z lo <= v)%Q /\ (v <= inject_Z hi)%Q /\
         two_decimals (H := exact_rounding) v).
Proof.
  exact (reading_in_range (RL := exact_rounding_laws) Temperature
           (MQTTClient.__init__ "kitchen") Demo.w0).
Defined.

(** ** The pause between two readings *)

Lemma pauses_of_interval `{Rounding} (k : sensor) :
  pauses_drawn_from k (fst (interval k)) (snd (interval k)).
Proof.
  assert (Hk : fst (interval k) <= snd (interval k)) by (destruct k; cbn; lia).
  intros seconds. split.
  - intros (self & w & w' & Hrun & Hlast).
    destruct (tick_run k self w)
      as (message & z & w'' & Hrun' & Htr & Hz & _).
    rewrite Hrun in Hrun'. injection Hrun' as <-.
    rewrite Htr in Hlast.
    change [?p; ?s] with ([p] ++ [s]) in Hlast.
    rewrite app_assoc, last_snoc in Hlast. injection Hlast as <-.
    exists z. split; [| reflexivity].
    rewrite Hz. now apply randint_range.
  - intros (z & Hz & ->).
    set (w := {| randoms := fun _ => Z.to_N (z - fst (interval k));
                 random_pos := 0; uuids := fun _ => 0%N; uuid_pos := 0;
                 trace := [] |}).
    destruct (tick_run k (MQTTClient.__init__ "") w)
      as (message & z' & w' & Hrun & Htr & Hz' & _).
    exists (MQTTClient.__init__ ""), w, w'. split; [exact Hrun |].
    rewrite Htr. change [?p; ?s] with ([p] ++ [s]).
    rewrite app_assoc, last_snoc.
    assert (z' = z) as ->; [| reflexivity].
    rewrite Hz'. cbn [randoms w].
    rewrite Z2N.id, Z.mod_small by lia. lia.
Qed.

Lemma pauses_drawn_from_unique `{Rounding} (k : sensor) (lo hi lo' hi' : Z) :
  lo <= hi ->
  pauses_drawn_from k lo hi -> pauses_drawn_from k lo' hi' ->
  lo' = lo /\ hi' = hi.
Proof.
  intros Hle H1 H2.
  assert (Hsame : forall z, lo <= z <= hi <-> lo' <= z <= hi').
  { intros z. split; intros Hz.
    - destruct (proj1 (H2 (inject_Z z))) as (z' & Hz' & E).
      { apply H1. now exists z. }
      apply (f_equal Qnum) in E. cbn in E. now subst z'.
    - destruct (proj1 (H1 (inject_Z z))) as (z' & Hz' & E).
      { apply H2. now exists z. }
      apply (f_equal Qnum) in E. cbn in E. now subst z'. }
  pose proof (proj1 (Hsame lo) ltac:(lia)).
  pose proof (proj1 (Hsame hi) ltac:(lia)).
  pose proof (proj2 (Hsame lo')). pose proof (proj2 (Hsame hi')). lia.
Qed.

(** C8, as amended.  The pause after a reading is a whole number of
    seconds drawn from a range fixed by the class of the sensor:
    [10 .. 15] for a temperature sensor, [30 .. 60] for a motion sensor,
    [100 .. 200] for a window sensor, a door sensor and a smoke detector.
    Two classes that draw from the same range are the same class or are
    both among these last three. *)
Theorem pause_ranges `{Rounding} :
  pauses_drawn_from Temperature 10 15 /\
  pauses_drawn_from Motion 30 60 /\
  pauses_drawn_from Window 100 200 /\
  pauses_drawn_from Door 100 200 /\
  pauses_drawn_from Smoke 100 200 /\
  (forall (k1 k2 : sensor) (lo hi : Z),
     pauses_drawn_from k1 lo hi -> pauses_drawn_from k2 lo hi ->
     k1 = k2 \/
     (In k1 [Window; Door; Smoke] /\ In k2 [Window; Door; Smoke])).
Proof.
  split; [exact (pauses_of_interval Temperature) |].
  split; [exact (pauses_of_interval Motion) |].
  split; [exact (pauses_of_interval Window) |].
  split; [exact (pauses_of_interval Door) |].
  split; [exact (pauses_of_interval Smoke) |].
  intros k1 k2 lo hi H1 H2.
  assert (Hk : forall k, fst (interval k) <= snd (interval k))
    by (intros k; destruct k; cbn; lia).
  destruct (pauses_drawn_from_unique k1 _ _ lo hi
              (Hk k1) (pauses_of_interval k1) H1) as [Hlo1 Hhi1].
  destruct (pauses_drawn_from_unique k2 _ _ lo hi
              (Hk k2) (pauses_of_interval k2) H2) as [Hlo2 Hhi2].
  destruct k1, k2; cbn in *; first [now left | lia | right; tauto].
Qed.

(** C8 as stated fails on a window sensor and a smoke detector: two
    classes, and both draw their pause from [100 .. 200]. *)
Lemma window_and_smoke_share_range :
  Window <> Smoke /\
  pauses_drawn_from (H := exact_rounding) Window 100 200 /\
  pauses_drawn_from (H := exact_rounding) Smoke 100 200.
Proof.
  split; [discriminate |].
  split;
    [exact (pauses_of_interval (H := exact_rounding) Window)
    | exact (pauses_of_interval (H := exact_rounding) Smoke)].
Qed.

(** * Further properties of the code *)

(** ** [get_next_random] on any bounds *)

Section Bounds.
Context `{RL : RoundingLaws}.

Lemma get_next_random_reversed (lower upper : Z) (w : world) :
  upper <= lower -> Z.abs lower <= 2 ^ 52 -> Z.abs upper <= 2 ^ 52 ->
  exists v : Q,
    get_next_random lower upper w = (Ok v, consume_random w) /\
    (inject_Z upper <= v)%Q /\ (v <= inject_Z lower)%Q.
Proof.
  intros Hle Hl Hu. eexists. split; [reflexivity |].
  destruct (random_unit (randoms w (random_pos w))) as [H0 H1].
  set (r := (Z.of_N (randoms w (random_pos w) mod 2 ^ 53)%N # 2 ^ 53)%Q) in *.
  assert (Hw : Z.abs (upper - lower) <= 2 ^ 53) by lia.
  assert (Hl' : Z.abs lower <= 2 ^ 53) by lia.
  assert (Hu' : Z.abs upper <= 2 ^ 53) by lia.
  assert (Hd : (inject_Z (upper - lower) <= 0)%Q).
  { change 0%Q with (inject_Z 0). rewrite <- Zle_Qle. lia. }
  assert (Hp : (inject_Z (upper - lower)
                <= fl (fl (inject_Z (upper - lower)) * r))%Q /\
               (fl (fl (inject_Z (upper - lower)) * r) <= inject_Z 0)%Q).
  { apply (fl_between _ (upper - lower) 0); [assumption | lia | |].
    - rewrite (fl_int _ Hw). nra.
    - rewrite (fl_int _ Hw). change (inject_Z 0) with 0%Q. nra. }
  destruct Hp as [Hp0 Hp1].
  set (p := fl (fl (inject_Z (upper - lower)) * r)) in *.
  assert (Hs : (inject_Z upper <= fl (fl (inject_Z lower) + p))%Q /\
               (fl (fl (inject_Z lower) + p) <= inject_Z lower)%Q).
  { apply fl_between; try assumption.
    - rewrite (fl_int _ Hl'). unfold Zminus in Hp0.
      rewrite inject_Z_plus, inject_Z_opp in Hp0. lra.
    - rewrite (fl_int _ Hl'). change (inject_Z 0) with 0%Q in Hp1. lra. }
  destruct Hs as [Hs0 Hs1].
  exact (round_between _ upper lower Hu' Hl' Hs0 Hs1).
Qed.

(** X1.  [get_next_random(lower, upper)] takes its bounds in either
    order: for integers of magnitude up to [2 ^ 52] it returns a float with
    two decimals between the smaller and the larger bound, so the bound
    itself when the two are equal; it takes one outcome of [random] and
    has no other effect. *)
Theorem get_next_random_between (lower upper : Z) (w : world) :
  Z.abs lower <= 2 ^ 52 -> Z.abs upper <= 2 ^ 52 ->
  exists v : Q,
    get_next_random lower upper w = (Ok v, consume_random w) /\
    (inject_Z (Z.min lower upper) <= v)%Q /\
    (v <= inject_Z (Z.max lower upper))%Q /\
    two_decimals v /\
    (lower = upper -> (v == inject_Z lower)%Q).
Proof.
  intros Hl Hu.
  assert (Hv : exists v : Q,
             get_next_random lower upper w = (Ok v, consume_random w) /\
             (inject_Z (Z.min lower upper) <= v)%Q /\
             (v <= inject_Z (Z.max lower upper))%Q /\ two_decimals v).
  { destruct (Z.le_gt_cases lower upper) as [Hle | Hgt].
    - destruct (get_next_random_spec lower upper w Hle Hl Hu)
        as (v & Hrun & Hv0 & Hv1 & Hv2).
      exists v. rewrite Z.min_l, Z.max_r by lia. auto.
    - destruct (get_next_random_reversed lower upper w ltac:(lia) Hl Hu)
        as (v & Hrun & Hv0 & Hv1).
      exists v. rewrite Z.min_r, Z.max_l by lia.
      repeat (split; [assumption |]).
      injection Hrun as <-. apply round_two_decimals. }
  destruct Hv as (v & Hrun & Hv0 & Hv1 & Hv2).
  exists v. repeat (split; [assumption |]).
  intros ->. rewrite Z.min_id in Hv0. rewrite Z.max_id in Hv1.
  now apply Qle_antisym.
Qed.

End Bounds.

(** The bounds [5] and [-5], the larger first. *)
Lemma get_next_random_between_witness :
  exists v : Q,
    get_next_random (H := exact_rounding) 5 (-5) Demo.w0
    = (Ok v, consume_random Demo.w0) /\
    (inject_Z (Z.min 5 (-5)) <= v)%Q /\
    (v <= inject_Z (Z.max 5 (-5)))%Q /\
    two_decimals (H := exact_rounding) v /\
    (5 = -5 -> (v == inject_Z 5)%Q).
Proof.
  apply (get_next_random_between (RL := exact_rounding_laws) 5 (-5) Demo.w0);
    vm_compute; discriminate.
Defined.

(** ** What a cycle of a sensor does to the world *)

Lemma index_decision (n : nat) (i : Z) :
  0 <= i <= Z.of_nat n ->
  index (true :: repeat false n) i = Ok (i =? 0).
Proof.
  intros Hi. unfold index. cbn [length]. rewrite repeat_length.
  destruct (_ || _) eqn:E.
  { apply orb_true_iff in E.
    destruct E as [E | E]; [apply Z.ltb_lt in E | apply Z.leb_le in E]; lia. }
  rewrite Z.mod_small by lia.
  destruct (Z.eqb_spec i 0) as [-> | Hne]; [reflexivity |].
  destruct (Z.to_nat i) as [| j] eqn:Ej; [lia |].
  cbn [lookup list_lookup].
  assert (Hj : (j < n)%nat) by lia.
  destruct (repeat false n !! j) as [b |] eqn:L.
  - apply list_elem_of_lookup_2, list_elem_of_In, repeat_spec in L. now subst b.
  - apply lookup_ge_None in L. rewrite repeat_length in L. lia.
Qed.

Ltac run_first_of_decision n :=
  match goal with
  | |- context [bind (randint 0 ?m) _ ?w] =>
      rewrite (bind_ok _ _ _ _ _ (randint_run 0 m w ltac:(cbn; lia)));
      cbv beta;
      match goal with
      | |- context [index ?l _] => change l with (true :: repeat false n)
      end;
      match goal with
      | |- context [index _ ?i] =>
          rewrite (index_decision n i)
            by (pose proof (randint_range 0 m (randoms w (random_pos w))
                              ltac:(cbn; lia)); cbn in *; lia);
          unfold bind at 1; unfold lift at 1
      end
  end.

(** One cycle of a sensor, in full: besides the reading and the pause, it
    takes [draws_of_reading k + 1] outcomes of [random] and one UUID; the
    field filled from the [decision] list is true exactly when the first
    outcome falls on the head of the list. *)
Lemma tick_full `{Rounding} (k : sensor) (self : MQTTClient.t) (w : world) :
  exists (message : dict) (seconds : Z) (w' : world),
    tick k self w = (Ok tt, w') /\
    trace w'
    = trace w ++ [Publish (MQTTClient.topic self) 2
                    (json_dumps (VDict message))
                    (Uuid.to_str (uuids w (uuid_pos w))) false;
                  Sleep (inject_Z seconds)] /\
    randoms w' = randoms w /\
    random_pos w' = S (draws_of_reading k + random_pos w) /\
    uuids w' = uuids w /\ uuid_pos w' = S (uuid_pos w) /\
    keys message = reading_fields k /\
    (forall (field : str) (m : Z),
       decision_field k = Some (field, m) ->
       dict_get field message
       = Some (VBool (Z.of_N (randoms w (random_pos w)) mod m =? 0))) /\
    (In "on"%string (reading_fields k) ->
     dict_get "on" message = Some (VBool true)).
Proof.
  destruct k; cbn [tick draws_of_reading reading_fields decision_field];
    [unfold TemperatureSensor.__simulation
    | unfold MotionSensor.__simulation | unfold WindowSensor.__simulation
    | unfold DoorSensor.__simulation | unfold SmokeDetector.__simulation];
    cbv zeta.
  - run_get_next_random temperature Ht. run_get_next_random humidity Hh.
    run_get_next_random battery Hb. run_get_next_random linkquality Hl.
    run_publish_and_pause.
    eexists _, _, _. split; [reflexivity |].
    split; [cbn; now rewrite <- app_assoc |].
    do 5 (split; [reflexivity |]). split; [discriminate |].
    cbn. intros Hin. exfalso. intuition discriminate.
  - run_first_of_decision 7%nat.
    run_get_next_random battery Hb. run_get_next_random linkquality Hl.
    run_publish_and_pause.
    eexists _, _, _. split; [reflexivity |].
    split; [cbn; now rewrite <- app_assoc |].
    do 5 (split; [reflexivity |]).
    split; [intros field m [= <- <-] |]; reflexivity.
  - run_first_of_decision 7%nat.
    run_get_next_random battery Hb. run_get_next_random linkquality Hl.
    run_publish_and_pause.
    eexists _, _, _. split; [reflexivity |].
    split; [cbn; now rewrite <- app_assoc |].
    do 5 (split; [reflexivity |]).
    split; [intros field m [= <- <-]; reflexivity |].
    cbn. intros Hin. exfalso. intuition discriminate.
  - run_first_of_decision 7%nat.
    run_get_next_random battery Hb. run_get_next_random linkquality Hl.
    run_publish_and_pause.
    eexists _, _, _. split; [reflexivity |].
    split; [cbn; now rewrite <- app_assoc |].
    do 5 (split; [reflexivity |]).
    split; [intros field m [= <- <-]; reflexivity |].
    cbn. intros Hin. exfalso. intuition discriminate.
  - run_first_of_decision 10%nat.
    run_get_next_random battery Hb. run_get_next_random linkquality Hl.
    run_publish_and_pause.
    eexists _, _, _. split; [reflexivity |].
    split; [cbn; now rewrite <- app_assoc |].
    do 5 (split; [reflexivity |]).
    split; [intros field m [= <- <-] |]; reflexivity.
Qed.

(** ** The field drawn from [decision] *)

(** X2.  The sensors other than the temperature sensor fill one boolean
    field from their [decision] list ([alert] for a motion sensor and a
    smoke detector, [open] for a window and a door sensor): the reading
    holds [true] there exactly when the first outcome of [random] of the
    cycle, taken modulo the length of the list (8, or 11 for the smoke
    detector), is 0, so for one outcome in 8 (in 11); the index never
    leaves the list; and [on], where the reading has it, is [true]. *)
Theorem decision_is_head `{Rounding} (k : sensor) (self : MQTTClient.t)
    (w : world) (field : str) (m : Z) :
  decision_field k = Some (field, m) ->
  exists (message : dict) (token : bytes) (seconds : Z) (w' : world),
    tick k self w = (Ok tt, w') /\
    trace w'
    = trace w ++ [Publish (MQTTClient.topic self) 2
                    (json_dumps (VDict message)) token false;
                  Sleep (inject_Z seconds)] /\
    dict_get field message
    = Some (VBool (Z.of_N (randoms w (random_pos w)) mod m =? 0)) /\
    (In "on"%string (reading_fields k) ->
     dict_get "on" message = Some (VBool true)).
Proof.
  intros Hfield.
  destruct (tick_full k self w)
    as (message & seconds & w' & Hrun & Htr & _ & _ & _ & _ & _ & Hdec & Hon).
  eexists message, _, seconds, w'.
  split; [exact Hrun |]. split; [exact Htr |].
  split; [exact (Hdec field m Hfield) | exact Hon].
Qed.

(** A cycle of the smoke detector of the kitchen: the first outcome is 17,
    and 17 modulo 11 is not 0. *)
Lemma decision_is_head_witness :
  exists (message : dict) (token : bytes) (seconds : Z) (w' : world),
    tick (H := exact_rounding) Smoke
      (MQTTClient.__init__ "kitchen-sensor-smokedetector") Demo.w0
    = (Ok tt, w') /\
    trace w'
    = trace Demo.w0
        ++ [Publish "mind2/kitchen-sensor-smokedetector" 2
              (json_dumps (VDict message)) token false;
            Sleep (inject_Z seconds)] /\
    dict_get "alert" message = Some (VBool false) /\
    (In "on"%string (reading_fields Smoke) ->
     dict_get "on" message = Some (VBool true)).
Proof.
  exact (decision_is_head (H := exact_rounding) Smoke
           (MQTTClient.__init__ "kitchen-sensor-smokedetector") Demo.w0
           "alert" 11 eq_refl).
Defined.

(** ** The loop of a sensor *)

Lemma subscriptions_reading (tr : list event) (topic : str) (p : json_text)
    (token : bytes) (s : Q) :
  subscriptions (tr ++ [Publish topic 2 p token false; Sleep s])
  = subscriptions tr.
Proof.
  change [Publish topic 2 p token false; Sleep s]
    with ([Publish topic 2 p token false] ++ [Sleep s]).
  now rewrite app_assoc, !subscriptions_snoc.
Qed.

(** [n] passes of the loop of a sensor. *)
Lemma sensor_cycles `{Rounding} (k : sensor) (self : MQTTClient.t) (n : nat)
    (rest : list bool) (w : world) :
  exists (added : list event) (w' : world),
    MQTTSensor.loop (tick k self) (repeat true n ++ rest) w
    = MQTTSensor.loop (tick k self) rest w' /\
    trace w' = trace w ++ added /\
    Forall (fun e => e <> Disconnect) added /\
    published added
    = map (fun i => (MQTTClient.topic self,
                     Uuid.to_str (uuids w (i + uuid_pos w))))
        (seq 0 n) /\
    subscriptions (trace w') = subscriptions (trace w) /\
    randoms w' = randoms w /\ uuids w' = uuids w /\
    random_pos w' = (n * S (draws_of_reading k) + random_pos w)%nat /\
    uuid_pos w' = (n + uuid_pos w)%nat.
Proof.
  revert w. induction n as [| n IH]; intros w.
  - exists [], w. cbn. rewrite app_nil_r. repeat split. constructor.
  - destruct (tick_full k self w)
      as (message & seconds & w1 & Hrun & Htr & Hrs & Hrp & Hus & Hup & _).
    destruct (IH w1)
      as (added & w' & Hloop & Htr' & Hno & Hpub & Hsub & Hrs' & Hus'
          & Hrp' & Hup').
    exists ([Publish (MQTTClient.topic self) 2 (json_dumps (VDict message))
               (Uuid.to_str (uuids w (uuid_pos w))) false;
             Sleep (inject_Z seconds)] ++ added), w'.
    split.
    { cbn [repeat app MQTTSensor.loop].
      rewrite (bind_ok _ _ _ _ _ Hrun). exact Hloop. }
    split; [rewrite Htr', Htr, <- app_assoc; reflexivity |].
    split.
    { apply Forall_app. split; [| exact Hno].
      repeat constructor; discriminate. }
    split.
    { rewrite published_app, Hpub. cbn [published omap app seq map].
      f_equal. rewrite <- seq_shift, map_map.
      apply map_ext. intros i. rewrite Hus, Hup.
      now rewrite Nat.add_succ_r. }
    split; [rewrite Hsub, Htr; apply subscriptions_reading |].
    split; [congruence |]. split; [congruence |].
    split; [rewrite Hrp', Hrp; cbn; lia | rewrite Hup', Hup; lia].
Qed.

(** X3.  The loop of a sensor that reads [SIMULATION_ALIVE] true [n] times
    and then false makes [n] cycles and disconnects: it publishes [n]
    readings on the sensor's own topic, the [i]-th with the text of the
    [i]-th next UUID as correlation data, ends with [disconnect()],
    changes no subscription, and takes [draws_of_reading k + 1] outcomes
    of [random] per cycle.  As long as it only reads true it never
    disconnects. *)
Theorem sensor_loop_run `{Rounding} (k : sensor) (self : MQTTClient.t)
    (n : nat) (rest : list bool) (w : world) :
  (exists w' : world,
     MQTTSensor.loop (tick k self) (repeat true n ++ false :: rest) w
     = (Ok true, w') /\
     published (trace w')
     = published (trace w)
         ++ map (fun i => (MQTTClient.topic self,
                           Uuid.to_str (uuids w (i + uuid_pos w))))
              (seq 0 n) /\
     last (trace w') = Some Disconnect /\
     subscriptions (trace w') = subscriptions (trace w) /\
     random_pos w' = (n * S (draws_of_reading k) + random_pos w)%nat /\
     uuid_pos w' = (n + uuid_pos w)%nat) /\
  (exists (added : list event) (w' : world),
     MQTTSensor.loop (tick k self) (repeat true n) w = (Ok false, w') /\
     trace w' = trace w ++ added /\
     Forall (fun e => e <> Disconnect) added).
Proof.
  split.
  - destruct (sensor_cycles k self n (false :: rest) w)
      as (added & w1 & Hloop & Htr & _ & Hpub & Hsub & _ & _ & Hrp & Hup).
    exists (record Disconnect w1). split; [exact Hloop |].
    cbn [trace record].
    split.
    { rewrite Htr, !published_app, Hpub. cbn. now rewrite app_nil_r. }
    split; [apply last_snoc |].
    split; [now rewrite subscriptions_snoc |].
    split; assumption.
  - destruct (sensor_cycles k self n [] w)
      as (added & w1 & Hloop & Htr & Hno & _).
    exists added, w1. rewrite app_nil_r in Hloop. now split.
Qed.

(** ** What the handler of an actuator does in every case *)

Lemma subscriptions_frame (topic : str) (added tr : list event) :
  Forall (handler_event topic) added ->
  subscriptions (tr ++ added) = subscriptions tr.
Proof.
  induction added as [| e added IH] using rev_ind; intros Hadded.
  - now rewrite app_nil_r.
  - apply Forall_app in Hadded as [Hadded He].
    apply Forall_inv in He.
    rewrite app_assoc, subscriptions_snoc.
    destruct e; cbn in He; first [now apply IH | destruct He].
Qed.

(** The outcomes of a handling: nothing but the delay when the payload does
    not decode or parse; the delay and the record logged when anything
    fails later; these two and one message when the handler returns. *)
Lemma on_message_outcome `{Rounding} `{JsonLib} (self : MQTTActuator.t)
    (message : MQTTMessage) (w : world) :
  exists (r : result unit) (w' : world) (ms : Z) (added : list event),
    MQTTActuator.__on_message self message w = (r, w') /\
    1 <= ms <= 10 /\
    trace w' = trace w ++ Sleep (fl (ms # 1000)) :: added /\
    ((exists e, r = Raise e /\ added = []) \/
     (exists e cmd,
        r = Raise e /\
        added = [Log INFO (LogReceivedMessage
                             (MQTTClient.name (MQTTActuator.client self))
                             cmd)]) \/
     (exists cmd out token,
        r = Ok tt /\
        added = [Log INFO (LogReceivedMessage
                             (MQTTClient.name (MQTTActuator.client self))
                             cmd);
                 Publish (MQTTClient.topic (MQTTActuator.client self)) 2
                   (json_dumps out) token false])).
Proof.
  pose proof (delay_range w) as Hms.
  destruct (decode (payload message)) as [text | e] eqn:Hdec.
  2: { eexists _, _, _, []. split.
       - exact (on_message_decode_error self message w e Hdec).
       - split; [exact Hms |]. split; [reflexivity | left; eauto]. }
  destruct (json_loads text) as [cmd | e] eqn:Hload.
  2: { eexists _, _, _, []. split.
       - exact (on_message_loads_error self message w text e Hdec Hload).
       - split; [exact Hms |]. split; [reflexivity | left; eauto]. }
  destruct (MQTTActuator.simulation self cmd) as [out | e] eqn:Hsim.
  2: { eexists _, _, _, [_]. split.
       - exact (on_message_simulation_error self message w text cmd e
                  Hdec Hload Hsim).
       - split; [exact Hms |].
         split; [cbn; now rewrite <- app_assoc | right; left; eauto]. }
  assert (Hno : (forall d, out <> VDict d) \/ CorrelationData message = None ->
                exists (r : result unit) (w' : world) (ms : Z)
                       (added : list event),
                  MQTTActuator.__on_message self message w = (r, w') /\
                  1 <= ms <= 10 /\
                  trace w' = trace w ++ Sleep (fl (ms # 1000)) :: added /\
                  ((exists e, r = Raise e /\ added = []) \/
                   (exists e cmd0,
                      r = Raise e /\
                      added = [Log INFO
                                 (LogReceivedMessage
                                    (MQTTClient.name
                                       (MQTTActuator.client self)) cmd0)]) \/
                   (exists cmd0 out0 token,
                      r = Ok tt /\
                      added = [Log INFO
                                 (LogReceivedMessage
                                    (MQTTClient.name
                                       (MQTTActuator.client self)) cmd0);
                               Publish (MQTTClient.topic
                                          (MQTTActuator.client self)) 2
                                 (json_dumps out0) token false]))).
  { intros Hwhy.
    destruct (on_message_no_response self message w text cmd out
                Hdec Hload Hsim Hwhy) as (e & w' & Hrun & Htr).
    eexists _, w', _, [_]. split; [exact Hrun |]. split; [exact Hms |].
    split; [exact Htr | right; left; eauto]. }
  destruct (CorrelationData message) as [c |] eqn:Hcd; [| now apply Hno; right].
  destruct out as [| | | | | | d];
    try (apply Hno; left; intros d; discriminate).
  destruct (on_message_responds self message w text cmd d c
              Hdec Hload Hsim Hcd)
    as (ms & battery & linkquality & wb & wl & token & w' & Hms' & _ & _
        & _ & _ & _ & Hrun & Htr).
  eexists _, w', ms, [_; _]. split; [exact Hrun |]. split; [exact Hms' |].
  split; [exact Htr | right; right; eauto].
Qed.

(** X4.  Whatever the message and whether the handling succeeds or raises,
    [MQTTActuator.__on_message] only adds to the trace, and what it adds
    begins with its delay of one to ten milliseconds and consists of
    sleeps, log records and messages published on the actuator's own topic
    with QoS 2 and [retain] false: it never connects, disconnects,
    subscribes or unsubscribes, so the subscriptions stay as they were.
    It publishes exactly one message when it returns and none when it
    raises. *)
Theorem on_message_frame `{Rounding} `{JsonLib} (self : MQTTActuator.t)
    (message : MQTTMessage) (w : world) :
  exists (r : result unit) (w' : world) (ms : Z) (added : list event),
    MQTTActuator.__on_message self message w = (r, w') /\
    1 <= ms <= 10 /\
    trace w' = trace w ++ Sleep (fl (ms # 1000)) :: added /\
    Forall (handler_event (MQTTClient.topic (MQTTActuator.client self)))
      added /\
    subscriptions (trace w') = subscriptions (trace w) /\
    match r with
    | Ok _ =>
        exists token : bytes,
          published (trace w')
          = published (trace w)
              ++ [(MQTTClient.topic (MQTTActuator.client self), token)]
    | Raise _ => published (trace w') = published (trace w)
    end.
Proof.
  destruct (on_message_outcome self message w)
    as (r & w' & ms & added & Hrun & Hms & Htr & Hcases).
  exists r, w', ms, added.
  split; [exact Hrun |]. split; [exact Hms |]. split; [exact Htr |].
  assert (Hadded : Forall (handler_event
                             (MQTTClient.topic (MQTTActuator.client self)))
                     added).
  { destruct Hcases as [(e & _ & ->) | [(e & cmd & _ & ->)
                                       | (cmd & out & token & _ & ->)]];
      repeat constructor. }
  split; [exact Hadded |].
  split.
  { rewrite Htr.
    apply (subscriptions_frame
             (MQTTClient.topic (MQTTActuator.client self))).
    constructor; [exact I | exact Hadded]. }
  rewrite Htr, published_app.
  destruct Hcases as [(e & -> & ->) | [(e & cmd & -> & ->)
                                      | (cmd & out & token & -> & ->)]];
    cbn; [now rewrite app_nil_r | now rewrite app_nil_r | eauto].
Qed.

(** ** A command that is no record *)

Lemma transform_not_a_record (k : actuator) (cmd : value) :
  (forall d : dict, cmd <> VDict d) -> transform k cmd = Raise TypeError.
Proof.
  intros Hnot. rewrite transform_run.
  destruct cmd as [| | | | | | d]; try reflexivity. now destruct (Hnot d).
Qed.

(** X5.  A payload that parses to something that is no record (a list, a
    number, a string, a boolean or [null]) makes every transform raise
    [TypeError]: the handler logs the value, raises, and publishes
    nothing. *)
Theorem on_message_not_a_record `{Rounding} `{JsonLib} (k : actuator)
    (actuator_name : str) (message : MQTTMessage) (w : world) (text : str)
    (cmd : value) :
  decode (payload message) = Ok text ->
  json_loads text = Ok cmd ->
  (forall d : dict, cmd <> VDict d) ->
  exists (ms : Z) (w' : world),
    1 <= ms <= 10 /\
    MQTTActuator.__on_message (new_actuator k actuator_name) message w
    = (Raise TypeError, w') /\
    trace w'
    = trace w ++ [Sleep (fl (ms # 1000));
                  Log INFO (LogReceivedMessage actuator_name cmd)] /\
    published (trace w') = published (trace w).
Proof.
  intros Hdec Hload Hnot.
  exact (on_message_transform_raises k actuator_name message w text cmd
           TypeError Hdec Hload (transform_not_a_record k cmd Hnot)).
Qed.

(** The thermostat of the kitchen receives the text [[1, 2]]. *)
Lemma on_message_not_a_record_witness :
  exists (ms : Z) (w' : world),
    1 <= ms <= 10 /\
    MQTTActuator.__on_message (H := exact_rounding)
      (H0 := JsonRef.lib (H := exact_rounding)) Demo.thermostat
      {| payload := "[1, 2]"; CorrelationData := Some "abc"%string |} Demo.w0
    = (Raise TypeError, w') /\
    trace w'
    = trace Demo.w0
        ++ [Sleep (ms # 1000);
            Log INFO (LogReceivedMessage "kitchen1-actuator-thermostat"
                        (VList [VInt 1; VInt 2]))] /\
    published (trace w') = published (trace Demo.w0).
Proof.
  apply (on_message_not_a_record (H := exact_rounding)
           (H0 := JsonRef.lib (H := exact_rounding)) ThermostatA
           "kitchen1-actuator-thermostat"
           {| payload := "[1, 2]"; CorrelationData := Some "abc"%string |}
           Demo.w0 "[1, 2]" (VList [VInt 1; VInt 2]) eq_refl eq_refl).
  intros d. discriminate.
Defined.

(** ** A command without correlation data *)

Lemma on_message_attribute_error `{Rounding} `{JsonLib}
    (self : MQTTActuator.t) (message : MQTTMessage) (w : world) (text : str)
    (cmd : value) (d : dict) :
  decode (payload message) = Ok text ->
  json_loads text = Ok cmd ->
  MQTTActuator.simulation self cmd = Ok (VDict d) ->
  CorrelationData message = None ->
  exists (ms : Z) (w' : world),
    1 <= ms <= 10 /\
    MQTTActuator.__on_message self message w
    = (Raise (AttributeError "CorrelationData"), w') /\
    trace w'
    = trace w ++ [Sleep (fl (ms # 1000));
                  Log INFO (LogReceivedMessage
                              (MQTTClient.name (MQTTActuator.client self))
                              cmd)] /\
    random_pos w' = (3 + random_pos w)%nat /\
    uuid_pos w' = uuid_pos w.
Proof.
  intros Hdec Hload Hsim Hcd.
  unfold MQTTActuator.__on_message.
  rewrite (bind_ok _ _ _ _ _ (randint_run 1 10 w ltac:(lia))).
  unfold sleep, MQTTActuator.get_CorrelationData.
  rewrite Hdec, Hcd.
  set (ms := 1 + Z.of_N (randoms w (random_pos w)) mod (10 - 1 + 1)).
  set (w2 := record (Sleep (fl (ms # 1000))) (consume_random w)).
  set (w3 := record (Log INFO (LogReceivedMessage
                                 (MQTTClient.name (MQTTActuator.client self))
                                 cmd)) w2).
  destruct (get_next_random_total 89 92 w3) as [battery Hb].
  destruct (get_next_random_total 50 255 (consume_random w3))
    as [linkquality Hl].
  exists ms, (consume_random (consume_random w3)).
  split; [apply delay_range |].
  split.
  - unfold bind at 1. cbn [emit]. fold w2.
    unfold bind at 1. unfold lift at 1.
    unfold bind at 1. unfold lift at 1. rewrite Hload.
    unfold bind at 1. cbn [emit]. fold w3.
    unfold bind at 1. unfold lift at 1. rewrite Hsim.
    rewrite (bind_ok _ _ _ _ _ Hb).
    unfold bind at 1. unfold lift at 1. cbn [setitem].
    rewrite (bind_ok _ _ _ _ _ Hl).
    unfold bind at 1. unfold lift at 1. cbn [setitem].
    unfold bind at 1. unfold lift at 1.
    reflexivity.
  - split; [cbn; now rewrite <- !app_assoc |]. split; reflexivity.
Qed.

(** X6.  A message that carries no correlation data is never answered:
    whatever its payload, the handler raises and publishes nothing.  When
    the payload is a command the transform accepts, the handler has by
    then slept, logged the command and drawn [battery] and [linkquality]
    (three outcomes of [random] in all): it raises [AttributeError] at
    the call of [publish], where it reads the correlation data. *)
Theorem on_message_without_correlation `{Rounding} `{JsonLib}
    (self : MQTTActuator.t) (message : MQTTMessage) (w : world) :
  CorrelationData message = None ->
  (exists (e : exn) (w' : world),
     MQTTActuator.__on_message self message w = (Raise e, w') /\
     published (trace w') = published (trace w)) /\
  (forall (text : str) (cmd : value) (d : dict),
     decode (payload message) = Ok text ->
     json_loads text = Ok cmd ->
     MQTTActuator.simulation self cmd = Ok (VDict d) ->
     exists (ms : Z) (w' : world),
       1 <= ms <= 10 /\
       MQTTActuator.__on_message self message w
       = (Raise (AttributeError "CorrelationData"), w') /\
       trace w'
       = trace w ++ [Sleep (fl (ms # 1000));
                     Log INFO (LogReceivedMessage
                                 (MQTTClient.name (MQTTActuator.client self))
                                 cmd)] /\
       random_pos w' = (3 + random_pos w)%nat /\
       uuid_pos w' = uuid_pos w).
Proof.
  intros Hcd. split.
  - destruct (on_message_outcome self message w)
      as (r & w' & ms & added & Hrun & _ & Htr & Hcases).
    destruct Hcases as [(e & -> & ->) | [(e & cmd & -> & ->)
                                        | (cmd & out & token & -> & _)]].
    + exists e, w'. split; [exact Hrun |].
      rewrite Htr, published_app. cbn. now rewrite app_nil_r.
    + exists e, w'. split; [exact Hrun |].
      rewrite Htr, published_app. cbn. now rewrite app_nil_r.
    + destruct (on_message_inv self message w w' Hrun)
        as (text & cmd' & d & c & _ & _ & _ & Hsome).
      rewrite Hcd in Hsome. discriminate Hsome.
  - intros text cmd d Hdec Hload Hsim.
    exact (on_message_attribute_error self message w text cmd d
             Hdec Hload Hsim Hcd).
Qed.

(** The door of the living room receives [{"open": true}] without
    correlation data. *)
Lemma on_message_without_correlation_witness :
  exists (ms : Z) (w' : world),
    1 <= ms <= 10 /\
    MQTTActuator.__on_message (H := exact_rounding)
      (H0 := JsonRef.lib (H := exact_rounding)) Demo.door
      {| payload := Demo.open_true; CorrelationData := None |} Demo.w0
    = (Raise (AttributeError "CorrelationData"), w') /\
    trace w'
    = trace Demo.w0
        ++ [Sleep (ms # 1000);
            Log INFO (LogReceivedMessage "livingroom-actuator-door"
                        (VDict [("open"%string, VBool true)]))] /\
    random_pos w' = (3 + random_pos Demo.w0)%nat /\
    uuid_pos w' = uuid_pos Demo.w0.
Proof.
  exact (proj2 (on_message_without_correlation (H := exact_rounding)
                  (H0 := JsonRef.lib (H := exact_rounding)) Demo.door
                  {| payload := Demo.open_true; CorrelationData := None |}
                  Demo.w0 eq_refl)
           Demo.open_true (VDict [("open"%string, VBool true)])
           [("open"%string, VBool true)] eq_refl eq_refl eq_refl).
Defined.

(** ** Connecting again *)

(** X7.  [MQTTActuator.__on_connect] subscribes, with QoS 2, to
    [<topic>/toggleState] when the connection is accepted (result code 0)
    and only logs a warning with the code otherwise, leaving the
    subscriptions as they were; it never publishes.  Accepting a
    connection a second time, as after a reconnection, leaves the set of
    subscriptions as the first time. *)
Theorem on_connect_subscriptions (self : MQTTActuator.t) (rc : Z) (w : world) :
  let topic := MQTTClient.topic (MQTTActuator.client self) in
  exists (w1 w2 : world),
    MQTTActuator.__on_connect self rc w = (Ok tt, w1) /\
    MQTTActuator.__on_connect self rc w1 = (Ok tt, w2) /\
    trace w1
    = trace w
        ++ (if rc =? 0
            then [Log INFO (LogConnected
                              (MQTTClient.name (MQTTActuator.client self))
                              MQTTClient.broker_url MQTTClient.broker_port);
                  Subscribe (topic ++ "/toggleState")%string 2]
            else [Log WARNING (LogConnectFailed rc)]) /\
    subscriptions (trace w1)
    = (if rc =? 0
       then subscriptions (trace w) ∪ {[ (topic ++ "/toggleState")%string ]}
       else subscriptions (trace w)) /\
    subscriptions (trace w2) = subscriptions (trace w1) /\
    published (trace w2) = published (trace w).
Proof.
  intros topic. unfold MQTTActuator.__on_connect.
  destruct (rc =? 0) eqn:Hrc.
  - eexists _, _. split; [reflexivity |]. split; [reflexivity |].
    cbn [trace record]. split; [now rewrite <- app_assoc |].
    rewrite !subscriptions_snoc. split; [reflexivity |].
    split.
    + apply set_eq. intros x.
      rewrite !elem_of_union, !elem_of_singleton. tauto.
    + rewrite !published_app. cbn. now rewrite !app_nil_r.
  - eexists _, _. split; [reflexivity |]. split; [reflexivity |].
    cbn [trace record]. split; [reflexivity |].
    rewrite !subscriptions_snoc. split; [reflexivity |].
    split; [reflexivity |].
    rewrite !published_app. cbn. now rewrite !app_nil_r.
Qed.

(** ** A response sent back as a command *)

(** X8.  The record a transform makes is a command the same transform
    answers with the same record: sent back as a command, with or without
    the [battery] and [linkquality] a response carries, it is echoed
    unchanged, since a transform reads its own fields only. *)
Theorem transform_of_response (k : actuator) (cmd : value) (d : dict)
    (battery linkquality : value) :
  transform k cmd = Ok (VDict d) ->
  transform k (VDict d) = Ok (VDict d) /\
  transform k (VDict (dict_set "linkquality" linkquality
                        (dict_set "battery" battery d)))
  = Ok (VDict d).
Proof.
  rewrite transform_run.
  destruct (getitem cmd (echoed k)) as [a | e]; cbn [rbind]; [| discriminate].
  destruct k; cbn [setpoint echoed];
    try (intros [= <-]; split; reflexivity);
    (destruct (truthy a) eqn:Ht;
     [destruct (getitem cmd _) as [v | e]; cbn [rbind]; [| discriminate] |]);
    intros [= <-]; split; rewrite transform_run;
    cbn [echoed setpoint getitem dict_set dict_get String.eqb Ascii.eqb
         Bool.eqb rbind];
    rewrite Ht; reflexivity.
Qed.

(** The record the thermostat makes of [{"active": 1, "state": 21}]. *)
Lemma transform_of_response_witness :
  transform ThermostatA
    (VDict [("active"%string, VInt 1); ("state"%string, VInt 21)])
  = Ok (VDict [("active"%string, VInt 1); ("state"%string, VInt 21)]) /\
  transform ThermostatA
    (VDict (dict_set "linkquality" (VFloat 120)
              (dict_set "battery" (VFloat 90)
                 [("active"%string, VInt 1); ("state"%string, VInt 21)])))
  = Ok (VDict [("active"%string, VInt 1); ("state"%string, VInt 21)]).
Proof.
  exact (transform_of_response ThermostatA
           (VDict [("state"%string, VInt 21); ("active"%string, VInt 1);
                   ("mode"%string, VStr "eco")])
           [("active"%string, VInt 1); ("state"%string, VInt 21)]
           (VFloat 90) (VFloat 120) eq_refl).
Defined.

(** ** The names of the devices *)

Lemma list_ascii_of_string_app (a b : string) :
  String.list_ascii_of_string (a ++ b)%string
  = String.list_ascii_of_string a ++ String.list_ascii_of_string b.
Proof.
  induction a as [| c a IH]; [reflexivity |].
  change (String c a ++ b)%string with (String c (a ++ b)%string).
  cbn [String.list_ascii_of_string]. now rewrite IH.
Qed.

Lemma list_ascii_of_string_inj (a b : string) :
  String.list_ascii_of_string a = String.list_ascii_of_string b -> a = b.
Proof.
  intros E. apply (f_equal String.string_of_list_ascii) in E.
  now rewrite !String.string_of_list_ascii_of_string in E.
Qed.

Lemma append_inv_tail (a b s : string) :
  (a ++ s)%string = (b ++ s)%string -> a = b.
Proof.
  intros E. apply (f_equal String.list_ascii_of_string) in E.
  rewrite !list_ascii_of_string_app in E.
  apply app_inv_tail in E. now apply list_ascii_of_string_inj.
Qed.

Lemma append_inv_head (p a b : string) :
  (p ++ a)%string = (p ++ b)%string -> a = b.
Proof.
  intros E. apply (f_equal String.list_ascii_of_string) in E.
  rewrite !list_ascii_of_string_app in E.
  apply app_inv_head in E. now apply list_ascii_of_string_inj.
Qed.

(** Two texts that are equal end alike: read from the end, the endings [s]
    and [t] agree as far as the shorter goes. *)
Lemma append_ends_alike (a b s t : string) :
  (a ++ s)%string = (b ++ t)%string ->
  take (Nat.min (String.length s) (String.length t))
    (rev (String.list_ascii_of_string s))
  = take (Nat.min (String.length s) (String.length t))
      (rev (String.list_ascii_of_string t)).
Proof.
  intros E. apply (f_equal String.list_ascii_of_string) in E.
  rewrite !list_ascii_of_string_app in E.
  apply (f_equal (@rev ascii)) in E. rewrite !rev_app_distr in E.
  apply (f_equal (take (Nat.min (String.length s) (String.length t)))) in E.
  assert (Hlen : forall x : string,
             length (rev (String.list_ascii_of_string x)) = String.length x).
  { intros x. rewrite length_rev.
    induction x as [| c x IH]; cbn; [reflexivity | now rewrite IH]. }
  rewrite !take_app_le in E by (rewrite Hlen; lia).
  exact E.
Qed.

(** The name of a device tells its class and the entry of the list it was
    made for. *)
Lemma name_inj (c1 c2 : Main.class) (e1 e2 : str) :
  Main.name c1 e1 = Main.name c2 e2 -> c1 = c2 /\ e1 = e2.
Proof.
  unfold Main.name. intros E.
  pose proof (append_ends_alike _ _ _ _ E) as Hends.
  destruct c1 as [[] | []], c2 as [[] | []];
    first [ split; [reflexivity | exact (append_inv_tail _ _ _ E)]
          | exfalso; vm_compute in Hends; discriminate Hends ].
Qed.

Lemma NoDup_map_inj {A B} (f : A -> B) (l : list A) :
  (forall x y, In x l -> In y l -> f x = f y -> x = y) ->
  NoDup l -> NoDup (map f l).
Proof.
  intros Hinj Hl. induction Hl as [| x l Hx Hl IH]; cbn; [constructor |].
  constructor.
  - rewrite list_elem_of_In, in_map_iff. intros (y & Hy & Hin).
    apply Hx. rewrite list_elem_of_In.
    rewrite (Hinj x y (or_introl eq_refl) (or_intror Hin) (eq_sym Hy)).
    exact Hin.
  - apply IH. intros a b Ha Hb. apply Hinj; now right.
Qed.

Lemma devices_names_NoDup (r : Main.roster) (cs : list Main.class) :
  NoDup cs ->
  (forall c, NoDup (Main.entries r c)) ->
  NoDup (map snd
           (flat_map (fun c => map (fun entry => (c, Main.name c entry))
                                 (Main.entries r c)) cs)).
Proof.
  intros Hcs Hr. induction Hcs as [| c cs Hc Hcs IH]; cbn; [constructor |].
  rewrite map_app, map_map. cbn [snd].
  apply NoDup_app. split; [| split; [| exact IH]].
  - apply NoDup_map_inj; [| apply Hr].
    intros x y _ _ E. now apply name_inj in E.
  - intros x Hx Hx'. apply list_elem_of_In in Hx, Hx'.
    apply in_map_iff in Hx as (e & <- & _).
    apply in_map_iff in Hx' as ([c' n'] & Hn & Hin). cbn in Hn.
    apply in_flat_map in Hin as (c'' & Hc'' & Hin).
    apply in_map_iff in Hin as (e' & Heq & _).
    injection Heq as <- <-. apply name_inj in Hn as [-> _].
    apply Hc. now apply list_elem_of_In.
Qed.

(** X9.  The main program names a device by the entry of its list
    followed by [-sensor-] or [-actuator-] and the class.  Whatever the
    lists hold, two devices have the same name only if they are of the
    same class and made for the same entry; so when no list repeats an
    entry, no two devices share a client name or a topic.  The two counts
    logged at the start add up to the number of devices made. *)
Theorem devices_are_distinct (r : Main.roster) :
  (forall c : Main.class, NoDup (Main.entries r c)) ->
  NoDup (map snd (Main.devices r)) /\
  NoDup (map Main.topic_of (Main.devices r)) /\
  length (Main.devices r)
  = (Main.SENSORS_COUNT r + Main.ACTUATORS_COUNT r)%nat /\
  (forall (c1 c2 : Main.class) (e1 e2 : str),
     Main.name c1 e1 = Main.name c2 e2 <-> c1 = c2 /\ e1 = e2).
Proof.
  intros Hr.
  assert (Hnames : NoDup (map snd (Main.devices r))).
  { apply devices_names_NoDup; [| exact Hr].
    unfold Main.loops.
    repeat (constructor;
            [rewrite list_elem_of_In; cbn; intuition discriminate |]).
    constructor. }
  split; [exact Hnames |]. split; [| split].
  - unfold Main.topic_of.
    rewrite <- (map_map snd
                  (fun n => MQTTClient.topic (MQTTClient.__init__ n))).
    apply NoDup_map_inj; [| exact Hnames].
    intros x y _ _ E.
    change (MQTTClient.topic (MQTTClient.__init__ ?n))
      with ("mind2/" ++ n)%string in E.
    exact (append_inv_head _ _ _ E).
  - unfold Main.devices, Main.loops, Main.SENSORS_COUNT, Main.ACTUATORS_COUNT.
    cbn [flat_map Main.entries]. rewrite !length_app, !length_map. cbn. lia.
  - intros c1 c2 e1 e2. split; [apply name_inj | now intros [-> ->]].
Qed.

(** The lists of the file: no list repeats an entry, and 27 sensors and
    30 actuators are made. *)
Lemma devices_are_distinct_witness :
  NoDup (map snd (Main.devices Main.lists)) /\
  NoDup (map Main.topic_of (Main.devices Main.lists)) /\
  length (Main.devices Main.lists) = (27 + 30)%nat /\
  (forall (c1 c2 : Main.class) (e1 e2 : str),
     Main.name c1 e1 = Main.name c2 e2 <-> c1 = c2 /\ e1 = e2).
Proof.
  apply (devices_are_distinct Main.lists).
  intros c.
  destruct c as [[] | []]; cbn;
    repeat (constructor;
            [rewrite list_elem_of_In; cbn; intuition discriminate |]);
    constructor.
Defined.

(** X10.  No device of the program publishes a command for a device of
    the program: the topic a device publishes on, [mind2/] and its name,
    is never the topic [<topic>/toggleState] an actuator subscribes to,
    whatever the entries of the lists are, because no name given by the
    main program ends like [/toggleState]. *)
Theorem devices_send_no_command (c1 c2 : Main.class) (e1 e2 : str) :
  String.eqb
    (Main.topic_of (c1, Main.name c1 e1))
    (Main.topic_of (c2, Main.name c2 e2) ++ "/toggleState")%string
  = false.
Proof.
  apply String.eqb_neq. unfold Main.topic_of, Main.name. cbn [snd].
  change (MQTTClient.topic (MQTTClient.__init__ ?n))
    with ("mind2/" ++ n)%string.
  intros E.
  assert (E' : (("mind2/" ++ e1) ++ Main.suffix c1)%string
               = (("mind2/" ++ e2 ++ Main.suffix c2) ++ "/toggleState")%string).
  { apply list_ascii_of_string_inj.
    apply (f_equal String.list_ascii_of_string) in E.
    rewrite !list_ascii_of_string_app in E.
    rewrite !list_ascii_of_string_app.
    repeat rewrite <- app_assoc in E. repeat rewrite <- app_assoc.
    exact E. }
  pose proof (append_ends_alike _ _ _ _ E') as Hends.
  destruct c1 as [[] | []]; vm_compute in Hends; discriminate Hends.
Qed.

(** ** The loop of an actuator while the simulation is alive *)

(** X11.  The loop of an actuator does nothing but sleep a tenth of a
    second for each time it reads [SIMULATION_ALIVE] true: as long as it
    only reads true it makes no call on the client.  It stops at the first
    false it reads: what [SIMULATION_ALIVE] holds afterwards has no
    effect. *)
Theorem actuator_loop_alive `{Rounding} (self : MQTTActuator.t) (n : nat)
    (w : world) :
  (exists w' : world,
     MQTTActuator.loop self (repeat true n) w = (Ok false, w') /\
     trace w' = trace w ++ repeat (Sleep (fl (1 # 10))) n /\
     subscriptions (trace w') = subscriptions (trace w) /\
     published (trace w') = published (trace w)) /\
  (forall rest rest' : list bool,
     MQTTActuator.loop self (repeat true n ++ false :: rest) w
     = MQTTActuator.loop self (repeat true n ++ false :: rest') w).
Proof.
  split.
  - assert (Hrun : exists w' : world,
               MQTTActuator.loop self (repeat true n) w = (Ok false, w') /\
               trace w' = trace w ++ repeat (Sleep (fl (1 # 10))) n).
    { revert w. induction n as [| n IH]; intros w.
      - exists w. split; [reflexivity | now rewrite app_nil_r].
      - destruct (IH (record (Sleep (fl (1 # 10))) w)) as (w' & Hrun & Htr).
        exists w'. split; [exact Hrun |].
        rewrite Htr. cbn. now rewrite <- app_assoc. }
    destruct Hrun as (w' & Hrun & Htr).
    exists w'. split; [exact Hrun |]. split; [exact Htr |].
    rewrite Htr. split; [apply subscriptions_sleeps |].
    rewrite published_app.
    assert (Hnone : published (repeat (Sleep (fl (1 # 10))) n) = []).
    { clear. induction n as [| n IH]; [reflexivity | exact IH]. }
    rewrite Hnone. apply app_nil_r.
  - intros rest rest'.
    destruct (actuator_loop_run self n rest w) as (w1 & Hrun & Htr).
    destruct (actuator_loop_run self n rest' w) as (w2 & Hrun' & Htr').
    rewrite Hrun, Hrun'. f_equal.
    clear Htr Htr'. revert w w1 w2 Hrun Hrun'.
    induction n as [| n IH]; intros w w1 w2 Hrun Hrun'.
    + cbn in Hrun, Hrun'. congruence.
    + exact (IH _ _ _ Hrun Hrun').
Qed.

(** ** A sequence of commands *)

Lemma on_message_token `{Rounding} `{JsonLib} (self : MQTTActuator.t)
    (message : MQTTMessage) (w w' : world) :
  MQTTActuator.__on_message self message w = (Ok tt, w') ->
  exists (c token : bytes),
    CorrelationData message = Some c /\
    published (trace w')
    = published (trace w)
        ++ [(MQTTClient.topic (MQTTActuator.client self), token)] /\
    (c <> ""%string -> token = c) /\
    (c = ""%string -> token <> c).
Proof.
  intros Hrun.
  destruct (on_message_inv self message w w' Hrun)
    as (text & cmd & d & c & Hdec & Hload & Hsim & Hcd).
  destruct (on_message_run self message w _ _ _ _ Hdec Hload Hsim Hcd)
    as (ms & battery & linkquality & wb & wl & w1 & _ & _ & _ & _ & _ & _
        & Htr & _ & _ & E).
  rewrite E in Hrun. clear E.
  assert (Hpub : published (trace w1) = published (trace w)).
  { rewrite Htr, published_app. cbn. apply app_nil_r. }
  destruct (String.eqb_spec c "") as [-> | Hne].
  - rewrite publish_fresh in Hrun by reflexivity. injection Hrun as <-.
    eexists ""%string, _. split; [exact Hcd |].
    split; [cbn [trace record consume_uuid];
            rewrite published_app, Hpub; reflexivity |].
    split; [intros Hc; now destruct Hc |].
    intros _. apply UuidFacts.to_str_nonempty.
  - rewrite publish_given in Hrun by assumption. injection Hrun as <-.
    exists c, c. split; [exact Hcd |].
    split; [cbn [trace record]; rewrite published_app, Hpub; reflexivity |].
    split; [reflexivity | intros Hc; now destruct Hne].
Qed.

(** X12.  When the handler of an actuator is called for the messages of a
    list one after the other and every call returns, it has published one
    response per message, in the order of the messages, all on the
    actuator's own topic: each response carries the correlation data of
    its own message when that is not empty, and otherwise correlation data
    of its own making. *)
Theorem on_messages_correlation `{Rounding} `{JsonLib}
    (self : MQTTActuator.t) (messages : list MQTTMessage) (w w' : world) :
  on_messages self messages w = (Ok tt, w') ->
  exists tokens : list bytes,
    published (trace w')
    = published (trace w)
        ++ map (fun token =>
                  (MQTTClient.topic (MQTTActuator.client self), token))
             tokens /\
    Forall2 (fun message token =>
               exists c : bytes,
                 CorrelationData message = Some c /\
                 (c <> ""%string -> token = c) /\
                 (c = ""%string -> token <> c))
      messages tokens.
Proof.
  revert w. induction messages as [| message rest IH]; intros w Hrun.
  - injection Hrun as <-. exists []. cbn. rewrite app_nil_r.
    split; [reflexivity | constructor].
  - cbn [on_messages] in Hrun. unfold bind in Hrun.
    destruct (MQTTActuator.__on_message self message w) as [[[] | e] w1]
      eqn:Hfirst; [| discriminate Hrun].
    destruct (on_message_token self message w w1 Hfirst)
      as (c & token & Hcd & Hpub & Hsame & Hfresh).
    destruct (IH w1 Hrun) as (tokens & Hpubs & Hall).
    exists (token :: tokens). split.
    + rewrite Hpubs, Hpub, <- app_assoc. reflexivity.
    + constructor; [exists c; auto | exact Hall].
Qed.

(** The door of the living room receives two commands, with the
    correlation data [t1] and [t2]. *)
Lemma on_messages_correlation_witness :
  exists tokens : list bytes,
    published
      (trace (snd (on_messages (H := exact_rounding)
                     (H0 := JsonRef.lib (H := exact_rounding)) Demo.door
                     [{| payload := Demo.open_true;
                         CorrelationData := Some "t1"%string |};
                      {| payload := Demo.open_true;
                         CorrelationData := Some "t2"%string |}] Demo.w0)))
    = published (trace Demo.w0)
        ++ map (fun token => ("mind2/livingroom-actuator-door"%string, token))
             tokens /\
    Forall2 (fun message token =>
               exists c : bytes,
                 CorrelationData message = Some c /\
                 (c <> ""%string -> token = c) /\
                 (c = ""%string -> token <> c))
      [{| payload := Demo.open_true; CorrelationData := Some "t1"%string |};
       {| payload := Demo.open_true; CorrelationData := Some "t2"%string |}]
      tokens.
Proof.
  apply (on_messages_correlation (H := exact_rounding)
           (H0 := JsonRef.lib (H := exact_rounding)) Demo.door
           [{| payload := Demo.open_true;
               CorrelationData := Some "t1"%string |};
            {| payload := Demo.open_true;
               CorrelationData := Some "t2"%string |}] Demo.w0).
  vm_compute. reflexivity.
Defined.
